(** * VocalBridge message-send pipeline: a shallow embedding and its properties

    The development follows the backend sources:
    - [billing/pricing.ts]            -> module [Pricing]
    - [reliability/retryPolicy.ts]    -> module [RetryPolicy]
    - [utils/hash.ts]                 -> modules [Sha256], [Json], [Hash]
    - [providers/types.ts], adapters  -> module [Providers]
    - [repositories/*Repo.ts]         -> modules [SessionRepo], [AgentRepo], ...
    - [reliability/providerCaller.ts] -> module [ProviderCaller]
    - [services/ConversationService.ts] -> module [ConversationService]

    JavaScript numbers that hold counts, HTTP codes and millisecond values are
    integers ([Z], [nat] for loop counters); numbers that hold money or a
    random draw are exact rationals ([Q]).  Strings are byte strings. *)

From Stdlib Require Import ZArith QArith Qround Qminmax String Ascii List Lia Lqa.
From stdpp Require Import base option list gmap strings pretty.

Open Scope string_scope.
Open Scope list_scope.
Open Scope Z_scope.

(* ===================================================================== *)
(** ** billing/pricing.ts *)
(* ===================================================================== *)

Module Pricing.

Record ProviderPricing := { usdPer1kTokens : Q }.

(** [PRICING_TABLE]: a two-entry object indexed by the provider name. *)
Definition PRICING_TABLE (provider : string) : option ProviderPricing :=
  if String.eqb provider "vendorA" then Some {| usdPer1kTokens := (2 # 1000)%Q |}
  else if String.eqb provider "vendorB" then Some {| usdPer1kTokens := (3 # 1000)%Q |}
  else None.

(** [Math.round]: the nearest integer, a tie going towards +infinity. *)
Definition Math_round (x : Q) : Z := Qfloor (x + (1 # 2))%Q.

(** [calculateCost]; [inr] carries the message of the [Error] thrown for
    a provider that is not in the table. *)
Definition calculateCost (provider : string) (tokensIn tokensOut : Z)
  : Q + string :=
  match PRICING_TABLE provider with
  | None => inr ("Unknown provider: " +:+ provider)
  | Some pricing =>
      let totalTokens := tokensIn + tokensOut in
      let costUsd := ((inject_Z totalTokens / 1000) * usdPer1kTokens pricing)%Q in
      inl (inject_Z (Math_round (costUsd * 1000000)) / 1000000)%Q
  end.

Definition getPricing (provider : string) : ProviderPricing + string :=
  match PRICING_TABLE provider with
  | None => inr ("Unknown provider: " +:+ provider)
  | Some pricing => inl pricing
  end.





End Pricing.

(* ===================================================================== *)
(** ** providers/types.ts *)
(* ===================================================================== *)

Module Providers.

Record ChatMessage := { cm_role : string; cm_content : string }.

Record ProviderRequest := {
  rq_systemPrompt : string;
  rq_messages : list ChatMessage;
  rq_enabledTools : list string
}.

Record NormalizedResponse := {
  text : string;
  tokensIn : Z;
  tokensOut : Z;
  latencyMs : Z
}.

(** [class ProviderError extends Error]. *)
Record ProviderError := {
  message : string;
  statusCode : Z;
  errorCode : string;
  retryAfterMs : option Z
}.

Definition isRetryable (e : ProviderError) : bool :=
  (500 <=? statusCode e) || (statusCode e =? 429).

Definition isRateLimit (e : ProviderError) : bool := statusCode e =? 429.

Definition isTimeout (e : ProviderError) : bool :=
  String.eqb (errorCode e) "TIMEOUT".

(** A value that a promise may reject with: a [ProviderError], or any
    other [Error] (of which only the [name] is ever inspected). *)
Inductive Thrown :=
| ThrownProviderError (e : ProviderError)
| ThrownError (name msg : string).

(** What awaiting a promise observes: it settles after [elapsed]
    milliseconds with a value or a rejection, or it never settles. *)
Inductive Promise (A : Type) :=
| Settles (elapsed : Z) (r : A + Thrown)
| NeverSettles.
Arguments Settles {A} elapsed r.
Arguments NeverSettles {A}.

(** [interface ProviderAdapter]: a name and a [call].  The second argument
    of [call] numbers the vendor calls of the run, so that a vendor may
    answer differently from one call to the next. *)
Record ProviderAdapter := {
  name : string;
  call : ProviderRequest -> nat -> Promise NormalizedResponse
}.

End Providers.

(* ===================================================================== *)
(** ** reliability/retryPolicy.ts *)
(* ===================================================================== *)

Module RetryPolicy.
Import Providers.

Record RetryConfig := {
  maxRetries : nat;
  initialBackoffMs : Z;
  timeoutMs : Z
}.

Definition DEFAULT_RETRY_CONFIG : RetryConfig :=
  {| maxRetries := 2; initialBackoffMs := 200; timeoutMs := 2000 |}.

(** The exponential delay with its jitter: the last three statements of
    [calculateBackoff]; [random] is the value of the [Math.random()] call,
    a number in [0, 1). *)
Definition jitteredBackoff (attempt : nat) (initialBackoffMs : Z) (random : Q) : Z :=
  let backoff := initialBackoffMs * 2 ^ Z.of_nat attempt in
  let jitter := (inject_Z backoff * 0.1 * (random * 2 - 1))%Q in
  Qfloor (inject_Z backoff + jitter)%Q.

(** [calculateBackoff]. *)
Definition calculateBackoff (attempt : nat) (initialBackoffMs : Z)
    (retryAfterMs : option Z) (random : Q) : Z :=
  match retryAfterMs with
  | Some ms =>
      if 0 <? ms then ms else jitteredBackoff attempt initialBackoffMs random
  | None => jitteredBackoff attempt initialBackoffMs random
  end.

Definition isRetryableError (error : Thrown) : bool :=
  match error with
  | ThrownProviderError e => isRetryable e
  | ThrownError name _ => String.eqb name "TimeoutError"
  end.

Definition getRetryAfter (error : Thrown) : option Z :=
  match error with
  | ThrownProviderError e => retryAfterMs e
  | ThrownError _ _ => None
  end.

(** [withTimeout]: the promise raced against a timer that rejects with a
    504 [TIMEOUT] [ProviderError] after [timeoutMs]. *)
Definition withTimeout {A} (promise : Promise A) (timeoutMs : Z)
    (errorMessage : string) : Z * (A + Thrown) :=
  let timedOut :=
    (timeoutMs,
     inr (ThrownProviderError
            {| message := errorMessage; statusCode := 504;
               errorCode := "TIMEOUT"; retryAfterMs := None |})) in
  match promise with
  | Settles elapsed r => if elapsed <=? timeoutMs then (elapsed, r) else timedOut
  | NeverSettles => timedOut
  end.



End RetryPolicy.

(* ===================================================================== *)
(** ** SHA-256 (FIPS 180-4), as [createHash('sha256')] computes it *)
(* ===================================================================== *)

Module Sha256.

Definition wrap32 (x : Z) : Z := x mod 2 ^ 32.
Definition add32 (x y : Z) : Z := wrap32 (x + y).
Definition rotr (n x : Z) : Z :=
  Z.lor (Z.shiftr x n) (wrap32 (Z.shiftl x (32 - n))).
Definition not32 (x : Z) : Z := 2 ^ 32 - 1 - x.

Definition Ch (x y z : Z) : Z := Z.lxor (Z.land x y) (Z.land (not32 x) z).
Definition Maj (x y z : Z) : Z :=
  Z.lxor (Z.lxor (Z.land x y) (Z.land x z)) (Z.land y z).
Definition bigSigma0 (x : Z) : Z := Z.lxor (Z.lxor (rotr 2 x) (rotr 13 x)) (rotr 22 x).
Definition bigSigma1 (x : Z) : Z := Z.lxor (Z.lxor (rotr 6 x) (rotr 11 x)) (rotr 25 x).
Definition smallSigma0 (x : Z) : Z := Z.lxor (Z.lxor (rotr 7 x) (rotr 18 x)) (Z.shiftr x 3).
Definition smallSigma1 (x : Z) : Z := Z.lxor (Z.lxor (rotr 17 x) (rotr 19 x)) (Z.shiftr x 10).

(** The round constants and the initial hash value are defined as the
    standard defines them: the first 32 bits of the fractional parts of the
    cube roots of the first 64 primes, and of the square roots of the
    first 8. *)
Definition is_prime (n : nat) : bool :=
  forallb (fun d => negb (Nat.eqb (n mod d) 0)) (seq 2 (n - 2)).

Definition primes_below (bound : nat) : list Z :=
  map Z.of_nat (List.filter is_prime (seq 2 (bound - 2))).

(** The largest [r] in [lo, hi) with [ok r], for a downward closed [ok]. *)
Fixpoint bisect (fuel : nat) (ok : Z -> bool) (lo hi : Z) : Z :=
  match fuel with
  | O => lo
  | S fuel' =>
      let mid := (lo + hi) / 2 in
      if ok mid then bisect fuel' ok mid hi else bisect fuel' ok lo mid
  end.

Definition cube_root (n : Z) : Z :=
  bisect 48 (fun r => r * r * r <=? n) 0 (2 ^ 40).

Definition K : list Z :=
  map (fun p => wrap32 (cube_root (p * 2 ^ 96))) (primes_below 312).

Definition H0 : list Z :=
  map (fun p => wrap32 (Z.sqrt (p * 2 ^ 64))) (primes_below 20).

(** Padding: a 1 bit, zeros up to 56 mod 64 bytes, the bit length on
    eight bytes, most significant first. *)
Definition be_bytes (width : nat) (x : Z) : list Z :=
  map (fun i => Z.shiftr x (8 * Z.of_nat i) mod 256) (rev (seq 0 width)).

Definition pad (msg : list Z) : list Z :=
  let len := Z.of_nat (length msg) in
  let zeros := Z.to_nat ((55 - len) mod 64) in
  msg ++ [128] ++ repeat 0 zeros ++ be_bytes 8 (8 * len).

Fixpoint words_of_bytes (bs : list Z) : list Z :=
  match bs with
  | b3 :: b2 :: b1 :: b0 :: rest =>
      (b3 * 2 ^ 24 + b2 * 2 ^ 16 + b1 * 2 ^ 8 + b0) :: words_of_bytes rest
  | _ => []
  end.

Fixpoint blocks_of_words (n : nat) (ws : list Z) : list (list Z) :=
  match n with
  | O => []
  | S n' =>
      match ws with
      | [] => []
      | _ => firstn 16 ws :: blocks_of_words n' (skipn 16 ws)
      end
  end.

(** The message schedule, grown from the 16 words of the block to 64. *)
Fixpoint schedule (n : nat) (w : list Z) : list Z :=
  match n with
  | O => w
  | S n' =>
      let t := length w in
      let at_ k := nth (t - k) w 0 in
      schedule n'
        (w ++ [add32 (add32 (smallSigma1 (at_ 2%nat)) (at_ 7%nat))
                     (add32 (smallSigma0 (at_ 15%nat)) (at_ 16%nat))])
  end.

Record Regs := { ra : Z; rb : Z; rc : Z; rd : Z; re : Z; rf : Z; rg : Z; rh : Z }.

Definition round (r : Regs) (kw : Z * Z) : Regs :=
  let t1 := add32 (add32 (add32 (rh r) (bigSigma1 (re r)))
                         (add32 (Ch (re r) (rf r) (rg r)) (fst kw))) (snd kw) in
  let t2 := add32 (bigSigma0 (ra r)) (Maj (ra r) (rb r) (rc r)) in
  {| ra := add32 t1 t2; rb := ra r; rc := rb r; rd := rc r;
     re := add32 (rd r) t1; rf := re r; rg := rf r; rh := rg r |}.

Definition regs_of (h : list Z) : Regs :=
  {| ra := nth 0 h 0; rb := nth 1 h 0; rc := nth 2 h 0; rd := nth 3 h 0;
     re := nth 4 h 0; rf := nth 5 h 0; rg := nth 6 h 0; rh := nth 7 h 0 |}.

Definition list_of (r : Regs) : list Z :=
  [ra r; rb r; rc r; rd r; re r; rf r; rg r; rh r].

Definition compress (h : list Z) (block : list Z) : list Z :=
  let w := schedule 48 block in
  let r := fold_left round (combine K w) (regs_of h) in
  map (fun p => add32 (fst p) (snd p)) (combine h (list_of r)).

Definition digest (msg : list Z) : list Z :=
  let ws := words_of_bytes (pad msg) in
  let h := fold_left compress (blocks_of_words (length ws) ws) H0 in
  flat_map (be_bytes 4) h.

(** Bytes of a string and the lower-case hexadecimal rendering. *)
Fixpoint bytes_of_string (s : string) : list Z :=
  match s with
  | EmptyString => []
  | String c rest => Z.of_N (N_of_ascii c) :: bytes_of_string rest
  end.

Definition hex_digit (n : Z) : ascii :=
  if n <? 10 then ascii_of_N (Z.to_N (48 + n)) else ascii_of_N (Z.to_N (87 + n)).

Fixpoint hex_of_bytes (bs : list Z) : string :=
  match bs with
  | [] => EmptyString
  | b :: rest => String (hex_digit (b / 16)) (String (hex_digit (b mod 16)) (hex_of_bytes rest))
  end.

(** [createHash('sha256').update(s).digest('hex')]. *)
Definition sha256_hex (s : string) : string :=
  hex_of_bytes (digest (bytes_of_string s)).

End Sha256.

(* ===================================================================== *)
(** ** JSON.stringify on strings, and [Date.prototype.toISOString] *)
(* ===================================================================== *)

Module Json.

Definition dquote : ascii := "034"%char.
Definition backslash : ascii := "092"%char.

(** The escape [JSON.stringify] writes for one character: the quote and
    the backslash are escaped, control characters below U+0020 get their
    short escape or a [\u00xx] escape, everything else is copied. *)
Definition escape_char (c : ascii) : string :=
  let n := Z.of_N (N_of_ascii c) in
  if n =? 34 then String backslash (String dquote EmptyString)
  else if n =? 92 then String backslash (String backslash EmptyString)
  else if n =? 8 then String backslash "b"
  else if n =? 12 then String backslash "f"
  else if n =? 10 then String backslash "n"
  else if n =? 13 then String backslash "r"
  else if n =? 9 then String backslash "t"
  else if n <? 32 then
    String backslash
      ("u00" +:+ String (Sha256.hex_digit (n / 16))
                   (String (Sha256.hex_digit (n mod 16)) EmptyString))
  else String c EmptyString.

Fixpoint escape (s : string) : string :=
  match s with
  | EmptyString => EmptyString
  | String c rest => escape_char c +:+ escape rest
  end.

Definition quote (s : string) : string :=
  String dquote (escape s +:+ String dquote EmptyString).

(** [JSON.stringify] of an object whose values are strings, the keys in
    the order of the object literal. *)
Fixpoint members (kvs : list (string * string)) : string :=
  match kvs with
  | [] => EmptyString
  | [(k, v)] => quote k +:+ ":" +:+ quote v
  | (k, v) :: rest => quote k +:+ ":" +:+ quote v +:+ "," +:+ members rest
  end.

Definition stringify_object (kvs : list (string * string)) : string :=
  "{" +:+ members kvs +:+ "}".

(** Decimal rendering on [width] digits, zero padded. *)
Fixpoint digits (width : nat) (n : Z) : string :=
  match width with
  | O => EmptyString
  | S w => digits w (n / 10) +:+ String (ascii_of_N (Z.to_N (48 + n mod 10))) EmptyString
  end.

(** [new Date(ms).toISOString()]: the proleptic Gregorian calendar date of
    the day number, then the time of day. *)
Definition toISOString (ms : Z) : string :=
  let days := ms / 86400000 in
  let rem := ms mod 86400000 in
  let z := days + 719468 in
  let era := z / 146097 in
  let doe := z - era * 146097 in
  let yoe := (doe - doe / 1460 + doe / 36524 - doe / 146096) / 365 in
  let doy := doe - (365 * yoe + yoe / 4 - yoe / 100) in
  let mp := (5 * doy + 2) / 153 in
  let d := doy - (153 * mp + 2) / 5 + 1 in
  let m := if mp <? 10 then mp + 3 else mp - 9 in
  let y := yoe + era * 400 + (if m <=? 2 then 1 else 0) in
  let year :=
    if (0 <=? y) && (y <=? 9999) then digits 4 y
    else if y <? 0 then "-" +:+ digits 6 (- y)
    else "+" +:+ digits 6 y in
  year +:+ "-" +:+ digits 2 m +:+ "-" +:+ digits 2 d +:+ "T" +:+
  digits 2 (rem / 3600000) +:+ ":" +:+ digits 2 (rem / 60000 mod 60) +:+ ":" +:+
  digits 2 (rem / 1000 mod 60) +:+ "." +:+ digits 3 (rem mod 1000) +:+ "Z".

End Json.

(* ===================================================================== *)
(** ** String operations of the language: white space, [trim], [split] *)
(* ===================================================================== *)

Module JsString.

Definition byte (c : ascii) : Z := Z.of_N (N_of_ascii c).

(** The white space and line terminator characters ([\s] of a regular
    expression, and what [trim] strips), as their UTF-8 bytes: TAB, LF, VT,
    FF, CR and SPACE on one byte, U+00A0 on two, and U+1680, U+2000 to
    U+200A, U+2028, U+2029, U+202F, U+205F, U+3000 and U+FEFF on three. *)
Definition ws1 (b : Z) : bool :=
  ((9 <=? b) && (b <=? 13)) || (b =? 32).

Definition ws2 (b1 b2 : Z) : bool := (b1 =? 194) && (b2 =? 160).

Definition ws3 (b1 b2 b3 : Z) : bool :=
  ((b1 =? 225) && (b2 =? 154) && (b3 =? 128)) ||
  ((b1 =? 226) && (b2 =? 128) &&
   (((128 <=? b3) && (b3 <=? 138)) || (b3 =? 168) || (b3 =? 169) || (b3 =? 175))) ||
  ((b1 =? 226) && (b2 =? 129) && (b3 =? 159)) ||
  ((b1 =? 227) && (b2 =? 128) && (b3 =? 128)) ||
  ((b1 =? 239) && (b2 =? 187) && (b3 =? 191)).

(** The rest of [s] after the white space character it starts with, if it
    starts with one. *)
Definition skip_ws (s : string) : option string :=
  match s with
  | String c1 rest1 =>
      if ws1 (byte c1) then Some rest1
      else
        match rest1 with
        | String c2 rest2 =>
            if ws2 (byte c1) (byte c2) then Some rest2
            else
              match rest2 with
              | String c3 rest3 =>
                  if ws3 (byte c1) (byte c2) (byte c3) then Some rest3 else None
              | EmptyString => None
              end
        | EmptyString => None
        end
  | EmptyString => None
  end.

(** [s.trim().length === 0]: [s] is made of white space only. *)
Fixpoint blank (s : string) : bool :=
  match s with
  | EmptyString => true
  | String c1 rest1 =>
      if ws1 (byte c1) then blank rest1
      else
        match rest1 with
        | String c2 rest2 =>
            if ws2 (byte c1) (byte c2) then blank rest2
            else
              match rest2 with
              | String c3 rest3 =>
                  if ws3 (byte c1) (byte c2) (byte c3) then blank rest3 else false
              | EmptyString => false
              end
        | EmptyString => false
        end
  end.

(** [s.split(/\s+/).length]: one more than the number of maximal runs of
    white space in [s].  [in_run] tells whether the character before the
    current position was white space. *)
Fixpoint ws_runs (in_run : bool) (s : string) : nat :=
  match s with
  | EmptyString => 0
  | String c1 rest1 =>
      let enter := if in_run then 0%nat else 1%nat in
      if ws1 (byte c1) then (enter + ws_runs true rest1)%nat
      else
        match rest1 with
        | String c2 rest2 =>
            if ws2 (byte c1) (byte c2) then (enter + ws_runs true rest2)%nat
            else
              match rest2 with
              | String c3 rest3 =>
                  if ws3 (byte c1) (byte c2) (byte c3)
                  then (enter + ws_runs true rest3)%nat
                  else ws_runs false rest1
              | EmptyString => ws_runs false rest1
              end
        | EmptyString => 0
        end
  end.

Definition split_ws_length (s : string) : nat := S (ws_runs false s).

End JsString.

(* ===================================================================== *)
(** ** utils/hash.ts *)
(* ===================================================================== *)

Module Hash.

Record RequestData := {
  tenantId : string;
  sessionId : string;
  content : string;
  timestamp : option string
}.

Definition hashApiKey (apiKey : string) : string := Sha256.sha256_hex apiKey.

(** [computeRequestHash]; [now] is the clock reading (milliseconds since
    the epoch) that [new Date()] takes when [data.timestamp] is absent or
    empty. *)
Definition computeRequestHash (now : Z) (data : RequestData) : string :=
  let timestamp' :=
    match timestamp data with
    | Some t => if String.eqb t EmptyString then Json.toISOString now else t
    | None => Json.toISOString now
    end in
  let payload :=
    Json.stringify_object
      [ ("tenantId", tenantId data);
        ("sessionId", sessionId data);
        ("content", content data);
        ("timestamp", timestamp') ] in
  Sha256.sha256_hex payload.

End Hash.

(* ===================================================================== *)
(** ** Vendor mocks and adapters (providers/vendorA, providers/vendorB) *)
(* ===================================================================== *)

Module Vendors.
Import Providers.

Record VendorAResponse := {
  outputText : string;
  va_tokensIn : Z;
  va_tokensOut : Z;
  va_latencyMs : Z
}.

Record VendorBResponse := {
  choices : list string;
  input_tokens : Z;
  output_tokens : Z
}.

(** What a mock's [call] may reject with: the vendor's own error class
    ([VendorAError], [VendorBError]) or something unexpected. *)
Inductive MockThrown :=
| VendorError (msg : string) (status : Z) (retryAfter : option Z)
| Unexpected.

Inductive MockPromise (A : Type) :=
| MockSettles (elapsed : Z) (r : A + MockThrown)
| MockNeverSettles.
Arguments MockSettles {A} elapsed r.
Arguments MockNeverSettles {A}.

Definition Mock (A : Type) : Type := ProviderRequest -> nat -> MockPromise A.

(** [VendorAAdapter.call]. *)
Definition VendorAAdapter (mock : Mock VendorAResponse) : ProviderAdapter :=
  {| name := "vendorA";
     call := fun request n =>
       match mock request n with
       | MockSettles elapsed (inl response) =>
           Settles elapsed
             (inl {| text := outputText response;
                     tokensIn := va_tokensIn response;
                     tokensOut := va_tokensOut response;
                     latencyMs := va_latencyMs response |})
       | MockSettles elapsed (inr (VendorError msg status _)) =>
           Settles elapsed
             (inr (ThrownProviderError
                     {| message := msg; statusCode := status;
                        errorCode := "SERVER_ERROR"; retryAfterMs := None |}))
       | MockSettles elapsed (inr Unexpected) =>
           Settles elapsed
             (inr (ThrownProviderError
                     {| message := "Unknown error calling VendorA";
                        statusCode := 500; errorCode := "UNKNOWN_ERROR";
                        retryAfterMs := None |}))
       | MockNeverSettles => NeverSettles
       end |}.

(** [VendorBAdapter.call]. *)
Definition VendorBAdapter (mock : Mock VendorBResponse) : ProviderAdapter :=
  {| name := "vendorB";
     call := fun request n =>
       match mock request n with
       | MockSettles elapsed (inl response) =>
           Settles elapsed
             (inl {| text := match choices response with c :: _ => c | [] => EmptyString end;
                     tokensIn := input_tokens response;
                     tokensOut := output_tokens response;
                     latencyMs := elapsed |})
       | MockSettles elapsed (inr (VendorError msg status retryAfter)) =>
           Settles elapsed
             (inr (ThrownProviderError
                     {| message := msg; statusCode := status;
                        errorCode := if status =? 429 then "RATE_LIMIT" else "SERVER_ERROR";
                        retryAfterMs := retryAfter |}))
       | MockSettles elapsed (inr Unexpected) =>
           Settles elapsed
             (inr (ThrownProviderError
                     {| message := "Unknown error calling VendorB";
                        statusCode := 500; errorCode := "UNKNOWN_ERROR";
                        retryAfterMs := None |}))
       | MockNeverSettles => NeverSettles
       end |}.

End Vendors.

(* ===================================================================== *)
(** ** Interfaces of providerCaller.ts and ConversationService.ts *)
(* ===================================================================== *)

Module Types.
Import Providers.

Inductive AttemptStatus := success | failed.

Record ProviderCallAttempt := {
  at_provider : string;
  at_status : AttemptStatus;
  at_httpStatus : option Z;
  at_latencyMs : Z;
  at_retries : nat;
  at_errorCode : option string;
  at_errorMessage : option string
}.

Record ProviderCallResult := {
  r_success : bool;
  r_response : option NormalizedResponse;
  r_error : option ProviderError;
  r_attempts : list ProviderCallAttempt;
  r_providerUsed : string;
  r_fallbackUsed : bool
}.

(** [context] argument of the provider caller. *)
Record CallContext := {
  c_tenantId : string;
  c_sessionId : string;
  c_agentId : string;
  c_requestId : string
}.

(** [SendMessageResponse]. *)
Record ResponseMessage := {
  rm_id : string;
  rm_sessionId : string;
  rm_role : string;
  rm_content : string;
  rm_createdAt : Z
}.

Record ResponseAttempt := {
  ra_provider : string;
  ra_status : AttemptStatus;
  ra_httpStatus : option Z;
  ra_latencyMs : Z;
  ra_retries : nat;
  ra_errorCode : option string
}.

Record ResponseUsage := {
  ru_tokensIn : Z;
  ru_tokensOut : Z;
  ru_costUsd : Q;
  ru_usdPer1kTokens : Q
}.

Record ResponseIdempotency := { key : string; replayed : bool }.

Record ResponseMetadata := {
  md_agentId : string;
  md_providerUsed : string;
  md_primaryAttempted : string;
  md_fallbackAttempted : option string;
  md_fallbackUsed : bool;
  md_attempts : list ResponseAttempt;
  md_usage : ResponseUsage;
  md_idempotency : ResponseIdempotency;
  md_requestId : string
}.

Record SendMessageResponse := {
  message : ResponseMessage;
  metadata : ResponseMetadata
}.

(** [storedResponse.metadata.idempotency.replayed = true]. *)
Definition set_replayed (r : SendMessageResponse) (b : bool) : SendMessageResponse :=
  {| message := message r;
     metadata :=
       {| md_agentId := md_agentId (metadata r);
          md_providerUsed := md_providerUsed (metadata r);
          md_primaryAttempted := md_primaryAttempted (metadata r);
          md_fallbackAttempted := md_fallbackAttempted (metadata r);
          md_fallbackUsed := md_fallbackUsed (metadata r);
          md_attempts := md_attempts (metadata r);
          md_usage := md_usage (metadata r);
          md_idempotency :=
            {| key := key (md_idempotency (metadata r)); replayed := b |};
          md_requestId := md_requestId (metadata r) |} |}.

End Types.

(* ===================================================================== *)
(** ** utils/errors.ts *)
(* ===================================================================== *)

Module Errors.
Import Types.

Inductive ErrorCode :=
| UNAUTHORIZED | INVALID_API_KEY | FORBIDDEN
| VALIDATION_ERROR | MISSING_REQUIRED_FIELD | INVALID_INPUT
| NOT_FOUND | RESOURCE_NOT_FOUND | AGENT_NOT_FOUND | SESSION_NOT_FOUND
| TENANT_NOT_FOUND
| IDEMPOTENCY_KEY_REQUIRED | IDEMPOTENCY_CONFLICT
| PROVIDER_ERROR | PROVIDER_TIMEOUT | PROVIDER_RATE_LIMIT
| PROVIDER_UNAVAILABLE | ALL_PROVIDERS_FAILED
| INTERNAL_ERROR | DATABASE_ERROR | UNKNOWN_ERROR.

(** The [details] objects the pipeline attaches to its errors. *)
Inductive Details :=
| SessionDetails (sessionId : string)
| AgentDetails (agentId : string)
| ProvidersDetails (primary : string) (fallback : option string)
    (attempts : list ProviderCallAttempt).

Record AppError := {
  code : ErrorCode;
  err_message : string;
  err_statusCode : Z;
  details : option Details;
  requestId : option string
}.

Definition sessionNotFoundError (sessionId rid : string) : AppError :=
  {| code := SESSION_NOT_FOUND;
     err_message := "Session with id '" +:+ sessionId +:+
                    "' not found or does not belong to this tenant";
     err_statusCode := 404;
     details := Some (SessionDetails sessionId);
     requestId := Some rid |}.

Definition agentNotFoundError (agentId rid : string) : AppError :=
  {| code := AGENT_NOT_FOUND;
     err_message := "Agent with id '" +:+ agentId +:+
                    "' not found or does not belong to this tenant";
     err_statusCode := 404;
     details := Some (AgentDetails agentId);
     requestId := Some rid |}.

Definition idempotencyKeyRequiredError (rid : string) : AppError :=
  {| code := IDEMPOTENCY_KEY_REQUIRED;
     err_message := "Idempotency-Key header is required for this operation";
     err_statusCode := 400;
     details := None;
     requestId := Some rid |}.

Definition allProvidersFailedError (d : Details) (rid : string) : AppError :=
  {| code := ALL_PROVIDERS_FAILED;
     err_message := "All configured providers failed to respond";
     err_statusCode := 503;
     details := Some d;
     requestId := Some rid |}.

(** Everything the pipeline can throw: an [AppError], a plain [Error]
    (with its message), or a Prisma request error (with its code). *)
Inductive Exception :=
| AppErr (e : AppError)
| JsError (msg : string)
| PrismaError (prismaCode : string).

End Errors.

(* ===================================================================== *)
(** ** The store (prisma schema) and the effects of a run *)
(* ===================================================================== *)

Module Store.
Import Providers Vendors Types Errors.

(** Rows.  [agents] and [sessions] are keyed by their primary key [id];
    [idempotency_records] by its unique index (tenantId, scope,
    idempotencyKey); the key columns are the map key, the records below
    hold the other columns.  [messages], [provider_call_events] and
    [usage_events] are append-only here and kept in insertion order. *)
Record AgentRow := {
  a_tenantId : string;
  a_name : string;
  a_primaryProvider : string;
  a_fallbackProvider : option string;
  a_systemPrompt : string;
  a_enabledTools : list string;     (* enabledToolsJson, parsed *)
  a_createdAt : Z;
  a_updatedAt : Z
}.

Record SessionRow := {
  s_tenantId : string;
  s_agentId : string;
  s_customerId : string;
  s_metadataJson : string;
  s_status : string;
  s_createdAt : Z;
  s_lastActivityAt : Z
}.

Record Message := {
  m_id : string;
  m_tenantId : string;
  m_sessionId : string;
  m_role : string;
  m_content : string;
  m_createdAt : Z
}.

Record ProviderCallEvent := {
  e_id : string;
  e_tenantId : string;
  e_sessionId : string;
  e_agentId : string;
  e_provider : string;
  e_status : AttemptStatus;
  e_httpStatus : option Z;
  e_latencyMs : option Z;
  e_retries : nat;
  e_errorCode : option string;
  e_errorMessage : option string;
  e_createdAt : Z;
  e_requestId : string
}.

Record UsageEvent := {
  u_id : string;
  u_tenantId : string;
  u_sessionId : string;
  u_agentId : string;
  u_provider : string;
  u_tokensIn : Z;
  u_tokensOut : Z;
  u_costUsd : Q;
  u_createdAt : Z;
  u_requestId : string
}.

(** [responseJson] is the serialized envelope or NULL; the text that
    [JSON.stringify] writes and [JSON.parse] reads back is represented by
    the envelope it encodes. *)
Record IdempotencyRow := {
  i_id : string;
  i_sessionId : option string;
  i_requestHash : string;
  i_responseJson : option SendMessageResponse;
  i_createdAt : Z
}.

Inductive Table :=
| Agents | Sessions | Messages | ProviderCallEvents | UsageEvents
| IdempotencyRecords.

(** Effects in the order they happen.  A store event carries the
    [tenantId] column of every row it returned or wrote. *)
Inductive Event :=
| DbRead (t : Table) (owners : list string)
| DbInsert (t : Table) (owner : string)
| DbUpdate (t : Table) (owner : string)
| VendorCall (provider : string)
| Sleep (ms : Z).

Record World := {
  agents : gmap string AgentRow;
  sessions : gmap string SessionRow;
  messages : list Message;
  providerCallEvents : list ProviderCallEvent;
  usageEvents : list UsageEvent;
  idempotencyRecords : gmap (string * string * string) IdempotencyRow;
  now : Z;                 (* Date.now() *)
  uuids : nat;             (* ids generated so far *)
  vendorCalls : nat;       (* vendor calls issued so far *)
  backoffs : nat;          (* backoff delays computed so far *)
  trace : list Event
}.

(** What the run does not control: the vendors' behaviour, the random
    draws and the generated uuids. *)
Record Env := {
  vendorAMock : Mock VendorAResponse;
  vendorBMock : Mock VendorBResponse;
  Math_random : nat -> Q;
  uuidv4 : nat -> string
}.

Definition with_agents (w : World) (x : gmap string AgentRow) : World :=
  {| agents := x; sessions := sessions w; messages := messages w;
     providerCallEvents := providerCallEvents w; usageEvents := usageEvents w;
     idempotencyRecords := idempotencyRecords w; now := now w; uuids := uuids w;
     vendorCalls := vendorCalls w; backoffs := backoffs w; trace := trace w |}.

Definition with_sessions (w : World) (x : gmap string SessionRow) : World :=
  {| agents := agents w; sessions := x; messages := messages w;
     providerCallEvents := providerCallEvents w; usageEvents := usageEvents w;
     idempotencyRecords := idempotencyRecords w; now := now w; uuids := uuids w;
     vendorCalls := vendorCalls w; backoffs := backoffs w; trace := trace w |}.

Definition with_messages (w : World) (x : list Message) : World :=
  {| agents := agents w; sessions := sessions w; messages := x;
     providerCallEvents := providerCallEvents w; usageEvents := usageEvents w;
     idempotencyRecords := idempotencyRecords w; now := now w; uuids := uuids w;
     vendorCalls := vendorCalls w; backoffs := backoffs w; trace := trace w |}.

Definition with_providerCallEvents (w : World) (x : list ProviderCallEvent) : World :=
  {| agents := agents w; sessions := sessions w; messages := messages w;
     providerCallEvents := x; usageEvents := usageEvents w;
     idempotencyRecords := idempotencyRecords w; now := now w; uuids := uuids w;
     vendorCalls := vendorCalls w; backoffs := backoffs w; trace := trace w |}.

Definition with_usageEvents (w : World) (x : list UsageEvent) : World :=
  {| agents := agents w; sessions := sessions w; messages := messages w;
     providerCallEvents := providerCallEvents w; usageEvents := x;
     idempotencyRecords := idempotencyRecords w; now := now w; uuids := uuids w;
     vendorCalls := vendorCalls w; backoffs := backoffs w; trace := trace w |}.

Definition with_idempotencyRecords (w : World)
    (x : gmap (string * string * string) IdempotencyRow) : World :=
  {| agents := agents w; sessions := sessions w; messages := messages w;
     providerCallEvents := providerCallEvents w; usageEvents := usageEvents w;
     idempotencyRecords := x; now := now w; uuids := uuids w;
     vendorCalls := vendorCalls w; backoffs := backoffs w; trace := trace w |}.

Definition with_now (w : World) (x : Z) : World :=
  {| agents := agents w; sessions := sessions w; messages := messages w;
     providerCallEvents := providerCallEvents w; usageEvents := usageEvents w;
     idempotencyRecords := idempotencyRecords w; now := x; uuids := uuids w;
     vendorCalls := vendorCalls w; backoffs := backoffs w; trace := trace w |}.

Definition with_uuids (w : World) (x : nat) : World :=
  {| agents := agents w; sessions := sessions w; messages := messages w;
     providerCallEvents := providerCallEvents w; usageEvents := usageEvents w;
     idempotencyRecords := idempotencyRecords w; now := now w; uuids := x;
     vendorCalls := vendorCalls w; backoffs := backoffs w; trace := trace w |}.

Definition with_vendorCalls (w : World) (x : nat) : World :=
  {| agents := agents w; sessions := sessions w; messages := messages w;
     providerCallEvents := providerCallEvents w; usageEvents := usageEvents w;
     idempotencyRecords := idempotencyRecords w; now := now w; uuids := uuids w;
     vendorCalls := x; backoffs := backoffs w; trace := trace w |}.

Definition with_backoffs (w : World) (x : nat) : World :=
  {| agents := agents w; sessions := sessions w; messages := messages w;
     providerCallEvents := providerCallEvents w; usageEvents := usageEvents w;
     idempotencyRecords := idempotencyRecords w; now := now w; uuids := uuids w;
     vendorCalls := vendorCalls w; backoffs := x; trace := trace w |}.

Definition with_trace (w : World) (x : list Event) : World :=
  {| agents := agents w; sessions := sessions w; messages := messages w;
     providerCallEvents := providerCallEvents w; usageEvents := usageEvents w;
     idempotencyRecords := idempotencyRecords w; now := now w; uuids := uuids w;
     vendorCalls := vendorCalls w; backoffs := backoffs w; trace := x |}.

(** *** The monad of a run: environment, state, exceptions.
    A thrown exception keeps the state reached so far: the pipeline opens
    no transaction, rows already written stay written. *)
Inductive Result (A : Type) :=
| Ok (a : A)
| Throw (e : Exception).
Arguments Ok {A} a.
Arguments Throw {A} e.

Definition M (A : Type) : Type := Env -> World -> Result A * World.

Definition ret {A} (a : A) : M A := fun _ w => (Ok a, w).

Definition bind {A B} (m : M A) (k : A -> M B) : M B :=
  fun env w =>
    match m env w with
    | (Ok a, w') => k a env w'
    | (Throw e, w') => (Throw e, w')
    end.

Definition throw {A} (e : Exception) : M A := fun _ w => (Throw e, w).

Definition tryCatch {A} (m : M A) (handler : Exception -> M A) : M A :=
  fun env w =>
    match m env w with
    | (Ok a, w') => (Ok a, w')
    | (Throw e, w') => handler e env w'
    end.

Definition get : M World := fun _ w => (Ok w, w).
Definition put (w : World) : M unit := fun _ _ => (Ok tt, w).
Definition ask : M Env := fun env w => (Ok env, w).

Definition emit (ev : Event) : M unit :=
  fun _ w => (Ok tt, with_trace w (trace w ++ [ev])).

Definition Date_now : M Z := fun _ w => (Ok (now w), w).

(** Time passing while a promise is awaited. *)
Definition elapse (ms : Z) : M unit :=
  fun _ w => (Ok tt, with_now w (now w + ms)).

End Store.

Notation "x <- c1 ;; c2" := (Store.bind c1 (fun x => c2))
  (at level 100, c1 at next level, right associativity).
Notation "c1 ;;; c2" := (Store.bind c1 (fun _ => c2))
  (at level 100, right associativity).

(* ===================================================================== *)
(** ** utils/ids.ts *)
(* ===================================================================== *)

Module Ids.
Import Store.

Definition generateId (prefix : string) : M string :=
  fun env w => (Ok (prefix +:+ uuidv4 env (uuids w)), with_uuids w (S (uuids w))).

Definition generateMessageId : M string := generateId "msg_".
Definition generateEventId : M string := generateId "evt_".
Definition generateIdempotencyId : M string := generateId "idem_".
Definition generateAgentId : M string := generateId "agt_".
Definition generateSessionId : M string := generateId "ses_".

End Ids.

(* ===================================================================== *)
(** ** repositories/IdempotencyRepo.ts *)
(* ===================================================================== *)

Module IdempotencyRepo.
Import Types Errors Store.

Record IdempotencyRecord := {
  tenantId : string;
  scope : string;
  idempotencyKey : string;
  row : IdempotencyRow
}.

Record CreateIdempotencyRecordData := {
  d_id : string;
  d_tenantId : string;
  d_scope : string;
  d_idempotencyKey : string;
  d_sessionId : option string;
  d_requestHash : string
}.

(** [lookup]: [findUnique] on the unique index. *)
Definition lookup (tenantId scope idempotencyKey : string)
  : M (option IdempotencyRecord) :=
  w <- get ;;
  let found := idempotencyRecords w !! (tenantId, scope, idempotencyKey) in
  emit (DbRead IdempotencyRecords
          (match found with Some _ => [tenantId] | None => [] end)) ;;;
  ret (match found with
       | Some r => Some {| tenantId := tenantId; scope := scope;
                           idempotencyKey := idempotencyKey; row := r |}
       | None => None
       end).

(** [prisma.idempotencyRecord.create]: the unique index rejects a second
    row for the same (tenantId, scope, idempotencyKey) with P2002. *)
Definition prisma_create (data : CreateIdempotencyRecordData)
  : M IdempotencyRecord :=
  w <- get ;;
  let k := (d_tenantId data, d_scope data, d_idempotencyKey data) in
  match idempotencyRecords w !! k with
  | Some _ => throw (PrismaError "P2002")
  | None =>
      let r := {| i_id := d_id data;
                  i_sessionId := d_sessionId data;
                  i_requestHash := d_requestHash data;
                  i_responseJson := None;
                  i_createdAt := now w |} in
      put (with_idempotencyRecords w (<[k := r]> (idempotencyRecords w))) ;;;
      emit (DbInsert IdempotencyRecords (d_tenantId data)) ;;;
      ret {| tenantId := d_tenantId data; scope := d_scope data;
             idempotencyKey := d_idempotencyKey data; row := r |}
  end.

(** [create]: on a unique constraint violation the existing record is
    looked up and returned; any other error is thrown again. *)
Definition create (data : CreateIdempotencyRecordData) : M IdempotencyRecord :=
  tryCatch (prisma_create data)
    (fun error =>
       match error with
       | PrismaError c =>
           if String.eqb c "P2002" then
             existing <- lookup (d_tenantId data) (d_scope data)
                                (d_idempotencyKey data) ;;
             match existing with
             | Some r => ret r
             | None => throw error
             end
           else throw error
       | _ => throw error
       end).

(** [updateResponse]: [update] on the unique index; P2025 when no row
    matches. *)
Definition updateResponse (tenantId scope idempotencyKey : string)
    (responseJson : SendMessageResponse) : M IdempotencyRecord :=
  w <- get ;;
  let k := (tenantId, scope, idempotencyKey) in
  match idempotencyRecords w !! k with
  | None => throw (PrismaError "P2025")
  | Some r =>
      let r' := {| i_id := i_id r;
                   i_sessionId := i_sessionId r;
                   i_requestHash := i_requestHash r;
                   i_responseJson := Some responseJson;
                   i_createdAt := i_createdAt r |} in
      put (with_idempotencyRecords w (<[k := r']> (idempotencyRecords w))) ;;;
      emit (DbUpdate IdempotencyRecords tenantId) ;;;
      ret {| tenantId := tenantId; scope := scope;
             idempotencyKey := idempotencyKey; row := r' |}
  end.

(** [deleteOld]: [deleteMany] of the records created before [olderThan],
    whichever tenant owns them; the result is [result.count].  (The trace
    has no event for a deletion.) *)
Definition deleteOld (olderThan : Z) : M nat :=
  w <- get ;;
  let deleted :=
    filter (fun kr => i_createdAt (snd kr) < olderThan) (idempotencyRecords w) in
  let kept :=
    filter (fun kr => ~ i_createdAt (snd kr) < olderThan) (idempotencyRecords w) in
  put (with_idempotencyRecords w kept) ;;;
  ret (size deleted).

End IdempotencyRepo.

(* ===================================================================== *)
(** ** repositories/SessionRepo.ts *)
(* ===================================================================== *)

Module SessionRepo.
Import Errors Store.

Record Session := { id : string; row : SessionRow }.

(** [findById]: [findFirst] where id and tenantId both match. *)
Definition findById (tenantId sessionId : string) : M (option Session) :=
  w <- get ;;
  let found :=
    match sessions w !! sessionId with
    | Some r => if String.eqb (s_tenantId r) tenantId then Some r else None
    | None => None
    end in
  emit (DbRead Sessions
          (match found with Some r => [s_tenantId r] | None => [] end)) ;;;
  ret (match found with
       | Some r => Some {| id := sessionId; row := r |}
       | None => None
       end).

(** [updateLastActivity]: [update] where id matches, whichever tenant
    owns the row; P2025 when there is no such row. *)
Definition updateLastActivity (sessionId : string) : M Session :=
  w <- get ;;
  match sessions w !! sessionId with
  | None => throw (PrismaError "P2025")
  | Some r =>
      let r' := {| s_tenantId := s_tenantId r;
                   s_agentId := s_agentId r;
                   s_customerId := s_customerId r;
                   s_metadataJson := s_metadataJson r;
                   s_status := s_status r;
                   s_createdAt := s_createdAt r;
                   s_lastActivityAt := now w |} in
      put (with_sessions w (<[sessionId := r']> (sessions w))) ;;;
      emit (DbUpdate Sessions (s_tenantId r)) ;;;
      ret {| id := sessionId; row := r' |}
  end.

Record CreateSessionData := {
  d_id : string;
  d_tenantId : string;
  d_agentId : string;
  d_customerId : string;
  d_metadataJson : string
}.

(** [create]: the row is inserted with status 'active'; [createdAt] (the
    column default) and [lastActivityAt] are the time of the insert.  The
    primary key rejects a second row with the same id (P2002). *)
Definition create (data : CreateSessionData) : M Session :=
  w <- get ;;
  match sessions w !! d_id data with
  | Some _ => throw (PrismaError "P2002")
  | None =>
      let r := {| s_tenantId := d_tenantId data;
                  s_agentId := d_agentId data;
                  s_customerId := d_customerId data;
                  s_metadataJson := d_metadataJson data;
                  s_status := "active";
                  s_createdAt := now w;
                  s_lastActivityAt := now w |} in
      put (with_sessions w (<[d_id data := r]> (sessions w))) ;;;
      emit (DbInsert Sessions (d_tenantId data)) ;;;
      ret {| id := d_id data; row := r |}
  end.

(** The optional [filters] of [findAll]; a filter that is absent or the
    empty string is not applied ([filters?.agentId && ...]). *)
Record SessionFilters := {
  f_agentId : option string;
  f_customerId : option string;
  f_status : option string
}.

Definition filter_applies (f : option string) (column : string) : bool :=
  match f with
  | Some v => if String.eqb v EmptyString then true else String.eqb column v
  | None => true
  end.

Definition matches (tenantId : string) (filters : option SessionFilters)
    (r : SessionRow) : bool :=
  String.eqb (s_tenantId r) tenantId &&
  match filters with
  | Some f =>
      filter_applies (f_agentId f) (s_agentId r) &&
      filter_applies (f_customerId f) (s_customerId r) &&
      filter_applies (f_status f) (s_status r)
  | None => true
  end.

(** [orderBy: { lastActivityAt: 'desc' }]. *)
Fixpoint insert_by_lastActivityAt (x : Session) (l : list Session) : list Session :=
  match l with
  | [] => [x]
  | y :: rest =>
      if s_lastActivityAt (row y) <=? s_lastActivityAt (row x) then x :: l
      else y :: insert_by_lastActivityAt x rest
  end.

Definition orderBy_lastActivityAt_desc (l : list Session) : list Session :=
  fold_right insert_by_lastActivityAt [] l.

Definition findAll (tenantId : string) (filters : option SessionFilters)
  : M (list Session) :=
  w <- get ;;
  let rows :=
    orderBy_lastActivityAt_desc
      (List.filter (fun x => matches tenantId filters (row x))
         (map (fun kr => {| id := fst kr; row := snd kr |})
              (map_to_list (sessions w)))) in
  emit (DbRead Sessions (map (fun x => s_tenantId (row x)) rows)) ;;;
  ret rows.

(** [closeSession]: the tenant-scoped [findById] first, then an [update]
    where the id matches. *)
Definition closeSession (tenantId sessionId : string) : M (option Session) :=
  existing <- findById tenantId sessionId ;;
  match existing with
  | None => ret None
  | Some _ =>
      w <- get ;;
      match sessions w !! sessionId with
      | None => throw (PrismaError "P2025")
      | Some r =>
          let r' := {| s_tenantId := s_tenantId r;
                       s_agentId := s_agentId r;
                       s_customerId := s_customerId r;
                       s_metadataJson := s_metadataJson r;
                       s_status := "closed";
                       s_createdAt := s_createdAt r;
                       s_lastActivityAt := now w |} in
          put (with_sessions w (<[sessionId := r']> (sessions w))) ;;;
          emit (DbUpdate Sessions (s_tenantId r)) ;;;
          ret (Some {| id := sessionId; row := r' |})
      end
  end.

End SessionRepo.

(* ===================================================================== *)
(** ** repositories/AgentRepo.ts *)
(* ===================================================================== *)

Module AgentRepo.
Import Errors Store.

Record Agent := { id : string; row : AgentRow }.

(** [findById]: [findFirst] where id and tenantId both match. *)
Definition findById (tenantId agentId : string) : M (option Agent) :=
  w <- get ;;
  let found :=
    match agents w !! agentId with
    | Some r => if String.eqb (a_tenantId r) tenantId then Some r else None
    | None => None
    end in
  emit (DbRead Agents
          (match found with Some r => [a_tenantId r] | None => [] end)) ;;;
  ret (match found with
       | Some r => Some {| id := agentId; row := r |}
       | None => None
       end).

(** [CreateAgentData]; [enabledToolsJson], the text of a JSON array of
    strings, is represented by the list it encodes. *)
Record CreateAgentData := {
  d_id : string;
  d_tenantId : string;
  d_name : string;
  d_primaryProvider : string;
  d_fallbackProvider : option string;
  d_systemPrompt : string;
  d_enabledToolsJson : list string
}.

(** [UpdateAgentData]: every field may be left out; [fallbackProvider] may
    also be given as null. *)
Record UpdateAgentData := {
  upd_name : option string;
  upd_primaryProvider : option string;
  upd_fallbackProvider : option (option string);
  upd_systemPrompt : option string;
  upd_enabledToolsJson : option (list string)
}.

(** [create]: [createdAt] is the column default and [updatedAt] is set by
    the client, both to the time of the insert; the primary key rejects a
    second row with the same id (P2002). *)
Definition create (data : CreateAgentData) : M Agent :=
  w <- get ;;
  match agents w !! d_id data with
  | Some _ => throw (PrismaError "P2002")
  | None =>
      let r := {| a_tenantId := d_tenantId data;
                  a_name := d_name data;
                  a_primaryProvider := d_primaryProvider data;
                  a_fallbackProvider := d_fallbackProvider data;
                  a_systemPrompt := d_systemPrompt data;
                  a_enabledTools := d_enabledToolsJson data;
                  a_createdAt := now w;
                  a_updatedAt := now w |} in
      put (with_agents w (<[d_id data := r]> (agents w))) ;;;
      emit (DbInsert Agents (d_tenantId data)) ;;;
      ret {| id := d_id data; row := r |}
  end.

(** [orderBy: { createdAt: 'desc' }]. *)
Fixpoint insert_by_createdAt (x : Agent) (l : list Agent) : list Agent :=
  match l with
  | [] => [x]
  | y :: rest =>
      if a_createdAt (row y) <=? a_createdAt (row x) then x :: l
      else y :: insert_by_createdAt x rest
  end.

Definition orderBy_createdAt_desc (l : list Agent) : list Agent :=
  fold_right insert_by_createdAt [] l.

Definition findAll (tenantId : string) : M (list Agent) :=
  w <- get ;;
  let rows :=
    orderBy_createdAt_desc
      (List.filter (fun x => String.eqb (a_tenantId (row x)) tenantId)
         (map (fun kr => {| id := fst kr; row := snd kr |})
              (map_to_list (agents w)))) in
  emit (DbRead Agents (map (fun x => a_tenantId (row x)) rows)) ;;;
  ret rows.

(** [update]: the tenant-scoped [findById] first, then an [update] where
    the id matches; a field that is left out keeps its value, [updatedAt]
    becomes the time of the update. *)
Definition update (tenantId agentId : string) (data : UpdateAgentData)
  : M (option Agent) :=
  existing <- findById tenantId agentId ;;
  match existing with
  | None => ret None
  | Some _ =>
      w <- get ;;
      match agents w !! agentId with
      | None => throw (PrismaError "P2025")
      | Some r =>
          let r' := {| a_tenantId := a_tenantId r;
                       a_name := default (a_name r) (upd_name data);
                       a_primaryProvider :=
                         default (a_primaryProvider r) (upd_primaryProvider data);
                       a_fallbackProvider :=
                         default (a_fallbackProvider r) (upd_fallbackProvider data);
                       a_systemPrompt :=
                         default (a_systemPrompt r) (upd_systemPrompt data);
                       a_enabledTools :=
                         default (a_enabledTools r) (upd_enabledToolsJson data);
                       a_createdAt := a_createdAt r;
                       a_updatedAt := now w |} in
          put (with_agents w (<[agentId := r']> (agents w))) ;;;
          emit (DbUpdate Agents (a_tenantId r)) ;;;
          ret (Some {| id := agentId; row := r' |})
      end
  end.

End AgentRepo.

(* ===================================================================== *)
(** ** repositories/MessageRepo.ts *)
(* ===================================================================== *)

Module MessageRepo.
Import Store.

Record CreateMessageData := {
  d_id : string;
  d_tenantId : string;
  d_sessionId : string;
  d_role : string;
  d_content : string
}.

Definition create (data : CreateMessageData) : M Message :=
  w <- get ;;
  let r := {| m_id := d_id data; m_tenantId := d_tenantId data;
              m_sessionId := d_sessionId data; m_role := d_role data;
              m_content := d_content data; m_createdAt := now w |} in
  put (with_messages w (messages w ++ [r])) ;;;
  emit (DbInsert Messages (m_tenantId r)) ;;;
  ret r.

(** [orderBy: { createdAt: 'asc' }]: a stable sort of the rows. *)
Fixpoint insert_by_createdAt (m : Message) (l : list Message) : list Message :=
  match l with
  | [] => [m]
  | x :: rest =>
      if m_createdAt m <=? m_createdAt x then m :: l
      else x :: insert_by_createdAt m rest
  end.

Definition orderBy_createdAt_asc (l : list Message) : list Message :=
  fold_right insert_by_createdAt [] l.

Definition in_session (tenantId sessionId : string) (m : Message) : bool :=
  String.eqb (m_tenantId m) tenantId && String.eqb (m_sessionId m) sessionId.

(** [listBySession]; [take] is applied only for a limit that is given and
    not zero. *)
Definition listBySession (tenantId sessionId : string) (limit : option nat)
  : M (list Message) :=
  w <- get ;;
  let rows :=
    orderBy_createdAt_asc
      (List.filter (in_session tenantId sessionId) (messages w)) in
  let rows :=
    match limit with
    | Some (S n) => firstn (S n) rows
    | _ => rows
    end in
  emit (DbRead Messages (map m_tenantId rows)) ;;;
  ret rows.

(** [orderBy: { createdAt: 'desc' }]. *)
Fixpoint insert_by_createdAt_desc (m : Message) (l : list Message) : list Message :=
  match l with
  | [] => [m]
  | x :: rest =>
      if m_createdAt x <=? m_createdAt m then m :: l
      else x :: insert_by_createdAt_desc m rest
  end.

Definition orderBy_createdAt_desc (l : list Message) : list Message :=
  fold_right insert_by_createdAt_desc [] l.

(** [getLastMessage]: [findFirst] in descending order of [createdAt]. *)
Definition getLastMessage (tenantId sessionId : string) : M (option Message) :=
  w <- get ;;
  let found :=
    head (orderBy_createdAt_desc
            (List.filter (in_session tenantId sessionId) (messages w))) in
  emit (DbRead Messages
          (match found with Some m => [m_tenantId m] | None => [] end)) ;;;
  ret found.

(** [countBySession]: the number of rows the filter selects. *)
Definition countBySession (tenantId sessionId : string) : M nat :=
  w <- get ;;
  let rows := List.filter (in_session tenantId sessionId) (messages w) in
  emit (DbRead Messages (map m_tenantId rows)) ;;;
  ret (length rows).

End MessageRepo.

(* ===================================================================== *)
(** ** repositories/ProviderCallEventRepo.ts, UsageEventRepo.ts *)
(* ===================================================================== *)

Module ProviderCallEventRepo.
Import Types Store.

Record CreateProviderCallEventData := {
  d_id : string;
  d_tenantId : string;
  d_sessionId : string;
  d_agentId : string;
  d_provider : string;
  d_status : AttemptStatus;
  d_httpStatus : option Z;
  d_latencyMs : option Z;
  d_retries : nat;
  d_errorCode : option string;
  d_errorMessage : option string;
  d_requestId : string
}.

Definition create (data : CreateProviderCallEventData) : M ProviderCallEvent :=
  w <- get ;;
  let r := {| e_id := d_id data; e_tenantId := d_tenantId data;
              e_sessionId := d_sessionId data; e_agentId := d_agentId data;
              e_provider := d_provider data; e_status := d_status data;
              e_httpStatus := d_httpStatus data; e_latencyMs := d_latencyMs data;
              e_retries := d_retries data; e_errorCode := d_errorCode data;
              e_errorMessage := d_errorMessage data;
              e_createdAt := now w; e_requestId := d_requestId data |} in
  put (with_providerCallEvents w (providerCallEvents w ++ [r])) ;;;
  emit (DbInsert ProviderCallEvents (e_tenantId r)) ;;;
  ret r.

End ProviderCallEventRepo.

Module UsageEventRepo.
Import Errors Store.

Record CreateUsageEventData := {
  d_id : string;
  d_tenantId : string;
  d_sessionId : string;
  d_agentId : string;
  d_provider : string;
  d_tokensIn : Z;
  d_tokensOut : Z;
  d_costUsd : Q;
  d_requestId : string
}.

Definition create (data : CreateUsageEventData) : M UsageEvent :=
  w <- get ;;
  let r := {| u_id := d_id data; u_tenantId := d_tenantId data;
              u_sessionId := d_sessionId data; u_agentId := d_agentId data;
              u_provider := d_provider data; u_tokensIn := d_tokensIn data;
              u_tokensOut := d_tokensOut data; u_costUsd := d_costUsd data;
              u_createdAt := now w; u_requestId := d_requestId data |} in
  put (with_usageEvents w (usageEvents w ++ [r])) ;;;
  emit (DbInsert UsageEvents (u_tenantId r)) ;;;
  ret r.

(** The [where] clause of [listEvents] and [getRollup]: the tenant's
    events created between [from] and [to], both included. *)
Definition in_range (tenantId : string) (from to : Z) (e : UsageEvent) : bool :=
  String.eqb (u_tenantId e) tenantId &&
  (from <=? u_createdAt e) && (u_createdAt e <=? to).

(** [orderBy: { createdAt: 'desc' }]. *)
Fixpoint insert_by_createdAt_desc (e : UsageEvent) (l : list UsageEvent)
  : list UsageEvent :=
  match l with
  | [] => [e]
  | x :: rest =>
      if u_createdAt x <=? u_createdAt e then e :: l
      else x :: insert_by_createdAt_desc e rest
  end.

Definition orderBy_createdAt_desc (l : list UsageEvent) : list UsageEvent :=
  fold_right insert_by_createdAt_desc [] l.

(** [listEvents]; [take] is applied only for a limit that is given and
    not zero. *)
Definition listEvents (tenantId : string) (from to : Z) (limit : option nat)
  : M (list UsageEvent) :=
  w <- get ;;
  let rows :=
    orderBy_createdAt_desc
      (List.filter (in_range tenantId from to) (usageEvents w)) in
  let rows :=
    match limit with
    | Some (S n) => firstn (S n) rows
    | _ => rows
    end in
  emit (DbRead UsageEvents (map u_tenantId rows)) ;;;
  ret rows.

(** [interface UsageRollup]. *)
Record RollupTotals := {
  t_sessions : nat;
  t_messages : nat;
  t_tokensIn : Z;
  t_tokensOut : Z;
  t_tokensTotal : Z;
  t_costUsd : Q
}.

Record ProviderRollup := {
  bp_provider : string;
  bp_sessions : nat;
  bp_tokensIn : Z;
  bp_tokensOut : Z;
  bp_tokensTotal : Z;
  bp_costUsd : Q
}.

Record AgentRollup := {
  ta_agentId : string;
  ta_agentName : string;
  ta_sessions : nat;
  ta_tokensTotal : Z;
  ta_costUsd : Q
}.

Record UsageRollup := {
  totals : RollupTotals;
  byProvider : list ProviderRollup;
  topAgentsByCost : list AgentRollup
}.

(** A [Set] of strings: its elements in insertion order, none twice. *)
Definition Set_add (x : string) (s : list string) : list string :=
  if existsb (String.eqb x) s then s else s ++ [x].

Definition Set_of (l : list string) : list string :=
  fold_left (fun s x => Set_add x s) l [].

(** A [Map] with string keys: its entries in insertion order; [Map_set]
    on a key that is present replaces the value where it stands. *)
Fixpoint Map_get {G} (key : string) (m : list (string * G)) : option G :=
  match m with
  | [] => None
  | (k, g) :: rest => if String.eqb k key then Some g else Map_get key rest
  end.

Definition Map_has {G} (key : string) (m : list (string * G)) : bool :=
  match Map_get key m with Some _ => true | None => false end.

Fixpoint Map_set {G} (key : string) (g : G) (m : list (string * G))
  : list (string * G) :=
  match m with
  | [] => [(key, g)]
  | (k, g0) :: rest =>
      if String.eqb k key then (k, g) :: rest else (k, g0) :: Map_set key g rest
  end.

Record ProviderGroup := {
  pg_sessions : list string;
  pg_tokensIn : Z;
  pg_tokensOut : Z;
  pg_costUsd : Q
}.

Record AgentGroup := {
  ag_agentName : string;
  ag_sessions : list string;
  ag_tokensTotal : Z;
  ag_costUsd : Q
}.

(** The body of the first [events.forEach]. *)
Definition groupByProvider (providerMap : list (string * ProviderGroup))
    (event : UsageEvent * AgentRow) : list (string * ProviderGroup) :=
  let e := fst event in
  let providerMap :=
    if Map_has (u_provider e) providerMap then providerMap
    else Map_set (u_provider e)
           {| pg_sessions := []; pg_tokensIn := 0; pg_tokensOut := 0;
              pg_costUsd := 0 |} providerMap in
  match Map_get (u_provider e) providerMap with
  | Some group =>
      Map_set (u_provider e)
        {| pg_sessions := Set_add (u_sessionId e) (pg_sessions group);
           pg_tokensIn := pg_tokensIn group + u_tokensIn e;
           pg_tokensOut := pg_tokensOut group + u_tokensOut e;
           pg_costUsd := pg_costUsd group + u_costUsd e |} providerMap
  | None => providerMap
  end.

(** The body of the second [events.forEach]. *)
Definition groupByAgent (agentMap : list (string * AgentGroup))
    (event : UsageEvent * AgentRow) : list (string * AgentGroup) :=
  let e := fst event in
  let agentMap :=
    if Map_has (u_agentId e) agentMap then agentMap
    else Map_set (u_agentId e)
           {| ag_agentName := a_name (snd event); ag_sessions := [];
              ag_tokensTotal := 0; ag_costUsd := 0 |} agentMap in
  match Map_get (u_agentId e) agentMap with
  | Some group =>
      Map_set (u_agentId e)
        {| ag_agentName := ag_agentName group;
           ag_sessions := Set_add (u_sessionId e) (ag_sessions group);
           ag_tokensTotal := ag_tokensTotal group + u_tokensIn e + u_tokensOut e;
           ag_costUsd := ag_costUsd group + u_costUsd e |} agentMap
  | None => agentMap
  end.

(** [.sort((a, b) => b.costUsd - a.costUsd)]: a stable sort, the larger
    cost first. *)
Fixpoint insert_by_cost (a : AgentRollup) (l : list AgentRollup) : list AgentRollup :=
  match l with
  | [] => [a]
  | b :: rest =>
      if Qle_bool (ta_costUsd b) (ta_costUsd a) then a :: l
      else b :: insert_by_cost a rest
  end.

Definition sort_by_cost_desc (l : list AgentRollup) : list AgentRollup :=
  fold_right insert_by_cost [] l.

(** [include: { agent: true }]: every event with the agent row its
    [agentId] refers to. *)
Definition include_agent (w : World) (e : UsageEvent)
  : option (UsageEvent * AgentRow) :=
  match agents w !! u_agentId e with
  | Some a => Some (e, a)
  | None => None
  end.

(** The rollup of the events the query returned. *)
Definition rollup (events : list (UsageEvent * AgentRow)) : UsageRollup :=
  let uniqueSessions := Set_of (map (fun e => u_sessionId (fst e)) events) in
  let totals :=
    {| t_sessions := length uniqueSessions;
       t_messages := length events;
       t_tokensIn := fold_left (fun sum e => sum + u_tokensIn (fst e)) events 0;
       t_tokensOut := fold_left (fun sum e => sum + u_tokensOut (fst e)) events 0;
       t_tokensTotal :=
         fold_left (fun sum e => sum + u_tokensIn (fst e) + u_tokensOut (fst e))
                   events 0;
       t_costUsd := fold_left (fun sum e => (sum + u_costUsd (fst e))%Q) events 0%Q |} in
  let providerMap := fold_left groupByProvider events [] in
  let byProvider :=
    map (fun entry =>
           {| bp_provider := fst entry;
              bp_sessions := length (pg_sessions (snd entry));
              bp_tokensIn := pg_tokensIn (snd entry);
              bp_tokensOut := pg_tokensOut (snd entry);
              bp_tokensTotal := pg_tokensIn (snd entry) + pg_tokensOut (snd entry);
              bp_costUsd := pg_costUsd (snd entry) |}) providerMap in
  let agentMap := fold_left groupByAgent events [] in
  let topAgentsByCost :=
    firstn 10
      (sort_by_cost_desc
         (map (fun entry =>
                 {| ta_agentId := fst entry;
                    ta_agentName := ag_agentName (snd entry);
                    ta_sessions := length (ag_sessions (snd entry));
                    ta_tokensTotal := ag_tokensTotal (snd entry);
                    ta_costUsd := ag_costUsd (snd entry) |}) agentMap)) in
  {| totals := totals; byProvider := byProvider;
     topAgentsByCost := topAgentsByCost |}.

(** [getRollup].  The foreign key of [usage_events.agentId] makes the
    agent row of every event exist; in a store where one is missing the
    query result is inconsistent and the call fails. *)
Definition getRollup (tenantId : string) (from to : Z) : M UsageRollup :=
  w <- get ;;
  let rows := List.filter (in_range tenantId from to) (usageEvents w) in
  match mapM (include_agent w) rows with
  | None => throw (JsError "Inconsistent query result")
  | Some events =>
      emit (DbRead UsageEvents (map u_tenantId rows)) ;;;
      emit (DbRead Agents (map (fun e => a_tenantId (snd e)) events)) ;;;
      ret (rollup events)
  end.

End UsageEventRepo.

(* ===================================================================== *)
(** ** reliability/providerCaller.ts *)
(* ===================================================================== *)

Module ProviderCaller.
Import Providers RetryPolicy Types Errors Store Ids.

(** [await withTimeout(provider.call(request), config.timeoutMs, ...)]:
    one vendor call is issued; the clock moves by the time the race took. *)
Definition awaitCall (provider : ProviderAdapter) (request : ProviderRequest)
    (config : RetryConfig) : M (NormalizedResponse + Thrown) :=
  fun env w =>
    let promise := call provider request (vendorCalls w) in
    let settled :=
      withTimeout promise (timeoutMs config)
        ("Provider " +:+ name provider +:+ " timed out after " +:+
         pretty (timeoutMs config) +:+ "ms") in
    (Ok (snd settled),
     with_now
       (with_vendorCalls
          (with_trace w (trace w ++ [VendorCall (name provider)]))
          (S (vendorCalls w)))
       (now w + fst settled)).

(** [await sleep(ms)]. *)
Definition sleep (ms : Z) : M unit :=
  emit (Sleep ms) ;;; elapse (Z.max 0 ms).

(** [calculateBackoff(attempt, config.initialBackoffMs, retryAfterMs)]
    with the draw of its [Math.random()]. *)
Definition drawBackoff (attempt : nat) (initialBackoffMs : Z)
    (retryAfterMs : option Z) : M Z :=
  fun env w =>
    (Ok (calculateBackoff attempt initialBackoffMs retryAfterMs
           (Math_random env (backoffs w))),
     with_backoffs w (S (backoffs w))).

Definition unknownError : ProviderError :=
  {| Providers.message := "Unknown error"; statusCode := 500;
     errorCode := "UNKNOWN_ERROR"; retryAfterMs := None |}.

(** The body of the [for] loop of [callProviderWithRetry], run at index
    [attempt]; [remaining] is [config.maxRetries - attempt], so that the
    test [attempt < config.maxRetries] reads [remaining = S _]. *)
Fixpoint attemptLoop (provider : ProviderAdapter) (request : ProviderRequest)
    (config : RetryConfig) (context : CallContext)
    (remaining attempt : nat) (attempts : list ProviderCallAttempt)
  : M ProviderCallResult :=
  startTime <- Date_now ;;
  settled <- awaitCall provider request config ;;
  endTime <- Date_now ;;
  let latencyMs := endTime - startTime in
  match settled with
  | inl response =>
      let attemptRecord :=
        {| at_provider := name provider; at_status := success;
           at_httpStatus := Some 200; at_latencyMs := latencyMs;
           at_retries := attempt; at_errorCode := None;
           at_errorMessage := None |} in
      let attempts := attempts ++ [attemptRecord] in
      eventId <- generateEventId ;;
      ProviderCallEventRepo.create
        {| ProviderCallEventRepo.d_id := eventId;
           ProviderCallEventRepo.d_tenantId := c_tenantId context;
           ProviderCallEventRepo.d_sessionId := c_sessionId context;
           ProviderCallEventRepo.d_agentId := c_agentId context;
           ProviderCallEventRepo.d_provider := name provider;
           ProviderCallEventRepo.d_status := success;
           ProviderCallEventRepo.d_httpStatus := Some 200;
           ProviderCallEventRepo.d_latencyMs := Some latencyMs;
           ProviderCallEventRepo.d_retries := attempt;
           ProviderCallEventRepo.d_errorCode := None;
           ProviderCallEventRepo.d_errorMessage := None;
           ProviderCallEventRepo.d_requestId := c_requestId context |} ;;;
      ret {| r_success := true; r_response := Some response; r_error := None;
             r_attempts := attempts; r_providerUsed := name provider;
             r_fallbackUsed := false |}
  | inr error =>
      let providerError :=
        match error with
        | ThrownProviderError e => e
        | ThrownError _ _ => unknownError
        end in
      let attemptRecord :=
        {| at_provider := name provider; at_status := failed;
           at_httpStatus := Some (statusCode providerError);
           at_latencyMs := latencyMs; at_retries := attempt;
           at_errorCode := Some (errorCode providerError);
           at_errorMessage := Some (Providers.message providerError) |} in
      let attempts := attempts ++ [attemptRecord] in
      eventId <- generateEventId ;;
      ProviderCallEventRepo.create
        {| ProviderCallEventRepo.d_id := eventId;
           ProviderCallEventRepo.d_tenantId := c_tenantId context;
           ProviderCallEventRepo.d_sessionId := c_sessionId context;
           ProviderCallEventRepo.d_agentId := c_agentId context;
           ProviderCallEventRepo.d_provider := name provider;
           ProviderCallEventRepo.d_status := failed;
           ProviderCallEventRepo.d_httpStatus := Some (statusCode providerError);
           ProviderCallEventRepo.d_latencyMs := Some latencyMs;
           ProviderCallEventRepo.d_retries := attempt;
           ProviderCallEventRepo.d_errorCode := Some (errorCode providerError);
           ProviderCallEventRepo.d_errorMessage :=
             Some (Providers.message providerError);
           ProviderCallEventRepo.d_requestId := c_requestId context |} ;;;
      let allFailed :=
        {| r_success := false; r_response := None;
           r_error := Some providerError; r_attempts := attempts;
           r_providerUsed := name provider; r_fallbackUsed := false |} in
      match remaining with
      | S remaining' =>
          if isRetryableError (ThrownProviderError providerError) then
            backoffMs <- drawBackoff attempt (initialBackoffMs config)
                           (getRetryAfter (ThrownProviderError providerError)) ;;
            sleep backoffMs ;;;
            attemptLoop provider request config context
              remaining' (S attempt) attempts
          else ret allFailed
      | O => ret allFailed
      end
  end.

Definition callProviderWithRetry (provider : ProviderAdapter)
    (request : ProviderRequest) (config : RetryConfig) (context : CallContext)
  : M ProviderCallResult :=
  attemptLoop provider request config context (maxRetries config) 0 [].

Definition callProviderWithFallback (primaryProvider : ProviderAdapter)
    (fallbackProvider : option ProviderAdapter) (request : ProviderRequest)
    (config : RetryConfig) (context : CallContext) : M ProviderCallResult :=
  primaryResult <- callProviderWithRetry primaryProvider request config context ;;
  if r_success primaryResult then ret primaryResult
  else
    match fallbackProvider with
    | Some fallback =>
        fallbackResult <- callProviderWithRetry fallback request config context ;;
        ret {| r_success := r_success fallbackResult;
               r_response := r_response fallbackResult;
               r_error := r_error fallbackResult;
               r_attempts := r_attempts primaryResult ++ r_attempts fallbackResult;
               r_providerUsed := r_providerUsed fallbackResult;
               r_fallbackUsed := true |}
    | None => ret primaryResult
    end.

End ProviderCaller.

(* ===================================================================== *)
(** ** services/ConversationService.ts *)
(* ===================================================================== *)

Module ConversationService.
Import Providers Vendors RetryPolicy Types Errors Store Ids.

Definition getProviderAdapter (providerName : string) : M ProviderAdapter :=
  env <- ask ;;
  if String.eqb providerName "vendorA" then ret (VendorAAdapter (vendorAMock env))
  else if String.eqb providerName "vendorB" then ret (VendorBAdapter (vendorBMock env))
  else throw (JsError ("Unknown provider: " +:+ providerName)).

Definition responseAttempt (a : ProviderCallAttempt) : ResponseAttempt :=
  {| ra_provider := at_provider a; ra_status := at_status a;
     ra_httpStatus := at_httpStatus a; ra_latencyMs := at_latencyMs a;
     ra_retries := at_retries a; ra_errorCode := at_errorCode a |}.

(** [sendMessage] is written below in the order of the source, in four
    parts that run one after the other: [checkIdempotency] (steps 1 and 2),
    [prepareSend] (steps 3 to 6), the call of the provider caller (step 7)
    and [completeSend] (the test of the provider result, then steps 8
    to 11). *)

(** Steps 1 and 2.  The result is the stored response to replay, already
    marked as replayed, or [None] when the send has to be processed. *)
Definition checkIdempotency (tenantId sessionId idempotencyKey
    userMessageContent : string) : M (option SendMessageResponse) :=
  (* STEP 1: idempotency check *)
  existingRecord <-
    IdempotencyRepo.lookup tenantId "send_message" idempotencyKey ;;
  match (match existingRecord with
         | Some r => i_responseJson (IdempotencyRepo.row r)
         | None => None
         end) with
  | Some storedResponse => ret (Some (set_replayed storedResponse true))
  | None =>
  (* STEP 2: create idempotency placeholder *)
  time <- Date_now ;;
  let requestHash :=
    Hash.computeRequestHash time
      {| Hash.tenantId := tenantId; Hash.sessionId := sessionId;
         Hash.content := userMessageContent; Hash.timestamp := None |} in
  recordId <- generateIdempotencyId ;;
  idempotencyRecord <-
    IdempotencyRepo.create
      {| IdempotencyRepo.d_id := recordId;
         IdempotencyRepo.d_tenantId := tenantId;
         IdempotencyRepo.d_scope := "send_message";
         IdempotencyRepo.d_idempotencyKey := idempotencyKey;
         IdempotencyRepo.d_sessionId := Some sessionId;
         IdempotencyRepo.d_requestHash := requestHash |} ;;
  match i_responseJson (IdempotencyRepo.row idempotencyRecord) with
  | Some storedResponse => ret (Some (set_replayed storedResponse true))
  | None => ret None
  end
  end.

(** What steps 3 to 6 hand over to step 7. *)
Record Prepared := {
  p_agent : AgentRepo.Agent;
  p_conversationHistory : ProviderRequest;
  p_primaryProvider : ProviderAdapter;
  p_fallbackProvider : option ProviderAdapter
}.

Definition prepareSend (tenantId sessionId userMessageContent
    requestId : string) : M Prepared :=
  (* STEP 3: validate session and agent *)
  session <- SessionRepo.findById tenantId sessionId ;;
  match session with
  | None => throw (AppErr (sessionNotFoundError sessionId requestId))
  | Some session =>
  agent <- AgentRepo.findById tenantId (s_agentId (SessionRepo.row session)) ;;
  match agent with
  | None =>
      throw (AppErr (agentNotFoundError (s_agentId (SessionRepo.row session))
                       requestId))
  | Some agent =>
  (* STEP 4: persist user message, update session activity *)
  userMessageId <- generateMessageId ;;
  MessageRepo.create
    {| MessageRepo.d_id := userMessageId;
       MessageRepo.d_tenantId := tenantId;
       MessageRepo.d_sessionId := sessionId;
       MessageRepo.d_role := "user";
       MessageRepo.d_content := userMessageContent |} ;;;
  SessionRepo.updateLastActivity sessionId ;;;
  (* STEP 5: build conversation history *)
  previousMessages <- MessageRepo.listBySession tenantId sessionId None ;;
  let conversationHistory :=
    {| rq_systemPrompt := a_systemPrompt (AgentRepo.row agent);
       rq_messages :=
         map (fun msg => {| cm_role := m_role msg; cm_content := m_content msg |})
             previousMessages;
       rq_enabledTools := a_enabledTools (AgentRepo.row agent) |} in
  (* STEP 6: provider adapters *)
  primaryProvider <- getProviderAdapter (a_primaryProvider (AgentRepo.row agent)) ;;
  fallbackProvider <-
    match a_fallbackProvider (AgentRepo.row agent) with
    | Some n =>
        if String.eqb n EmptyString then ret None
        else (p <- getProviderAdapter n ;; ret (Some p))
    | None => ret None
    end ;;
  ret {| p_agent := agent; p_conversationHistory := conversationHistory;
         p_primaryProvider := primaryProvider;
         p_fallbackProvider := fallbackProvider |}
  end end.

Definition callContext (tenantId sessionId requestId : string)
    (agent : AgentRepo.Agent) : CallContext :=
  {| c_tenantId := tenantId; c_sessionId := sessionId;
     c_agentId := AgentRepo.id agent; c_requestId := requestId |}.

Definition completeSend (tenantId sessionId idempotencyKey requestId : string)
    (agent : AgentRepo.Agent) (providerResult : ProviderCallResult)
  : M SendMessageResponse :=
  match (if r_success providerResult then r_response providerResult else None) with
  | None =>
      throw (AppErr (allProvidersFailedError
                       (ProvidersDetails (a_primaryProvider (AgentRepo.row agent))
                          (a_fallbackProvider (AgentRepo.row agent))
                          (r_attempts providerResult))
                       requestId))
  | Some response =>
  (* STEP 8: persist assistant message *)
  assistantMessageId <- generateMessageId ;;
  assistantMessage <-
    MessageRepo.create
      {| MessageRepo.d_id := assistantMessageId;
         MessageRepo.d_tenantId := tenantId;
         MessageRepo.d_sessionId := sessionId;
         MessageRepo.d_role := "assistant";
         MessageRepo.d_content := text response |} ;;
  (* STEP 9: cost and usage event *)
  match Pricing.calculateCost (r_providerUsed providerResult)
          (tokensIn response) (tokensOut response) with
  | inr msg => throw (JsError msg)
  | inl cost =>
  usageId <- generateEventId ;;
  UsageEventRepo.create
    {| UsageEventRepo.d_id := usageId;
       UsageEventRepo.d_tenantId := tenantId;
       UsageEventRepo.d_sessionId := sessionId;
       UsageEventRepo.d_agentId := AgentRepo.id agent;
       UsageEventRepo.d_provider := r_providerUsed providerResult;
       UsageEventRepo.d_tokensIn := tokensIn response;
       UsageEventRepo.d_tokensOut := tokensOut response;
       UsageEventRepo.d_costUsd := cost;
       UsageEventRepo.d_requestId := requestId |} ;;;
  (* STEP 10: build response *)
  let sendMessageResponse :=
    {| message :=
         {| rm_id := m_id assistantMessage;
            rm_sessionId := m_sessionId assistantMessage;
            rm_role := m_role assistantMessage;
            rm_content := m_content assistantMessage;
            rm_createdAt := m_createdAt assistantMessage |};
       metadata :=
         {| md_agentId := AgentRepo.id agent;
            md_providerUsed := r_providerUsed providerResult;
            md_primaryAttempted := a_primaryProvider (AgentRepo.row agent);
            md_fallbackAttempted := a_fallbackProvider (AgentRepo.row agent);
            md_fallbackUsed := r_fallbackUsed providerResult;
            md_attempts := map responseAttempt (r_attempts providerResult);
            md_usage :=
              {| ru_tokensIn := tokensIn response;
                 ru_tokensOut := tokensOut response;
                 ru_costUsd := cost;
                 ru_usdPer1kTokens :=
                   if String.eqb (r_providerUsed providerResult) "vendorA"
                   then 0.002%Q else 0.003%Q |};
            md_idempotency := {| key := idempotencyKey; replayed := false |};
            md_requestId := requestId |} |} in
  (* STEP 11: update idempotency record *)
  IdempotencyRepo.updateResponse tenantId "send_message" idempotencyKey
    sendMessageResponse ;;;
  ret sendMessageResponse
  end end.

(** [sendMessage]. *)
Definition sendMessage (tenantId sessionId : string)
    (idempotencyKey : option string) (userMessageContent requestId : string)
  : M SendMessageResponse :=
  match idempotencyKey with
  | None => throw (AppErr (idempotencyKeyRequiredError requestId))
  | Some idempotencyKey =>
  if String.eqb idempotencyKey EmptyString then
    throw (AppErr (idempotencyKeyRequiredError requestId))
  else
  replay <- checkIdempotency tenantId sessionId idempotencyKey
              userMessageContent ;;
  match replay with
  | Some storedResponse => ret storedResponse
  | None =>
  prepared <- prepareSend tenantId sessionId userMessageContent requestId ;;
  (* STEP 7: call provider with retry and fallback *)
  providerResult <-
    ProviderCaller.callProviderWithFallback
      (p_primaryProvider prepared) (p_fallbackProvider prepared)
      (p_conversationHistory prepared) DEFAULT_RETRY_CONFIG
      (callContext tenantId sessionId requestId (p_agent prepared)) ;;
  completeSend tenantId sessionId idempotencyKey requestId
    (p_agent prepared) providerResult
  end
  end.

End ConversationService.

(* ===================================================================== *)
(** ** services/AgentService.ts *)
(* ===================================================================== *)

Module AgentService.
Import Errors Store Ids.

(** [validationError(message, details, requestId)]: an [AppError] with code
    VALIDATION_ERROR and status 400.  Its [details] are the objects that
    [validateAgentInput] builds, and the functions of this service hand it
    back as a value ([inl]) where the source throws it. *)
Inductive ValidationDetails :=
| FieldDetails (field : string)
| FieldValueDetails (field value : string)
| ProvidersDetails (field primaryProvider fallbackProvider : string).

Record ValidationError := {
  v_code : ErrorCode;
  v_message : string;
  v_statusCode : Z;
  v_details : ValidationDetails;
  v_requestId : string
}.

Definition validationError (message : string) (details : ValidationDetails)
    (requestId : string) : ValidationError :=
  {| v_code := VALIDATION_ERROR; v_message := message; v_statusCode := 400;
     v_details := details; v_requestId := requestId |}.

(** [Partial<CreateAgentInput>]: every field may be undefined;
    [fallbackProvider] may also be null. *)
Record AgentInput := {
  in_name : option string;
  in_primaryProvider : option string;
  in_fallbackProvider : option (option string);
  in_systemPrompt : option string;
  in_enabledTools : option (list string)
}.

(** [x && ...] on a string that may be undefined or null: the string when
    it is there and not empty. *)
Definition truthy (x : option string) : option string :=
  match x with
  | Some v => if String.eqb v EmptyString then None else Some v
  | None => None
  end.

Definition known (p : string) : bool :=
  String.eqb p "vendorA" || String.eqb p "vendorB".

(** The [if (...) throw ...] statements of [validateAgentInput] in their
    order: the error of the first one whose test holds. *)
Fixpoint first_thrown (checks : list (option ValidationError))
  : option ValidationError :=
  match checks with
  | [] => None
  | Some e :: _ => Some e
  | None :: rest => first_thrown rest
  end.

(** [validateAgentInput]: the error it throws, or [None]. *)
Definition validateAgentInput (input : AgentInput) (requestId : string)
  : option ValidationError :=
  let primary := truthy (in_primaryProvider input) in
  let fallback := truthy (mjoin (in_fallbackProvider input)) in
  first_thrown
    [ match in_name input with
      | Some name =>
          if JsString.blank name then
            Some (validationError "Agent name cannot be empty"
                    (FieldDetails "name") requestId)
          else None
      | None => None
      end;
      match primary with
      | Some p =>
          if negb (known p) then
            Some (validationError
                    ("Primary provider must be " +:+ Json.quote "vendorA" +:+
                     " or " +:+ Json.quote "vendorB")
                    (FieldValueDetails "primaryProvider" p) requestId)
          else None
      | None => None
      end;
      match fallback with
      | Some f =>
          if negb (known f) then
            Some (validationError
                    ("Fallback provider must be " +:+ Json.quote "vendorA" +:+
                     " or " +:+ Json.quote "vendorB")
                    (FieldValueDetails "fallbackProvider" f) requestId)
          else None
      | None => None
      end;
      match primary, fallback with
      | Some p, Some f =>
          if String.eqb p f then
            Some (validationError
                    "Fallback provider must be different from primary provider"
                    (ProvidersDetails "fallbackProvider" p f) requestId)
          else None
      | _, _ => None
      end;
      match in_systemPrompt input with
      | Some prompt =>
          if JsString.blank prompt then
            Some (validationError "System prompt cannot be empty"
                    (FieldDetails "systemPrompt") requestId)
          else None
      | None => None
      end ].

(** [CreateAgentInput]. *)
Record CreateAgentInput := {
  c_name : string;
  c_primaryProvider : string;
  c_fallbackProvider : option (option string);
  c_systemPrompt : string;
  c_enabledTools : option (list string)
}.

Definition as_partial (input : CreateAgentInput) : AgentInput :=
  {| in_name := Some (c_name input);
     in_primaryProvider := Some (c_primaryProvider input);
     in_fallbackProvider := c_fallbackProvider input;
     in_systemPrompt := Some (c_systemPrompt input);
     in_enabledTools := c_enabledTools input |}.

(** [createAgent]. *)
Definition createAgent (tenantId : string) (input : CreateAgentInput)
    (requestId : string) : M (ValidationError + AgentRepo.Agent) :=
  match validateAgentInput (as_partial input) requestId with
  | Some e => ret (inl e)
  | None =>
      agentId <- generateAgentId ;;
      agent <-
        AgentRepo.create
          {| AgentRepo.d_id := agentId;
             AgentRepo.d_tenantId := tenantId;
             AgentRepo.d_name := c_name input;
             AgentRepo.d_primaryProvider := c_primaryProvider input;
             AgentRepo.d_fallbackProvider := mjoin (c_fallbackProvider input);
             AgentRepo.d_systemPrompt := c_systemPrompt input;
             AgentRepo.d_enabledToolsJson := default [] (c_enabledTools input) |} ;;
      ret (inr agent)
  end.

(** [getAgent]. *)
Definition getAgent (tenantId agentId requestId : string) : M AgentRepo.Agent :=
  agent <- AgentRepo.findById tenantId agentId ;;
  match agent with
  | None => throw (AppErr (agentNotFoundError agentId requestId))
  | Some agent => ret agent
  end.

(** [listAgents]. *)
Definition listAgents (tenantId : string) : M (list AgentRepo.Agent) :=
  AgentRepo.findAll tenantId.

(** [Object.keys(input).length > 0]. *)
Definition present {A} (x : option A) : bool :=
  match x with Some _ => true | None => false end.

Definition has_keys (input : AgentInput) : bool :=
  present (in_name input) || present (in_primaryProvider input) ||
  present (in_fallbackProvider input) || present (in_systemPrompt input) ||
  present (in_enabledTools input).

(** [updateAgent]. *)
Definition updateAgent (tenantId agentId : string) (input : AgentInput)
    (requestId : string) : M (ValidationError + AgentRepo.Agent) :=
  match (if has_keys input then validateAgentInput input requestId else None) with
  | Some e => ret (inl e)
  | None =>
      let updateData :=
        {| AgentRepo.upd_name := truthy (in_name input);
           AgentRepo.upd_primaryProvider := truthy (in_primaryProvider input);
           AgentRepo.upd_fallbackProvider := in_fallbackProvider input;
           AgentRepo.upd_systemPrompt := truthy (in_systemPrompt input);
           AgentRepo.upd_enabledToolsJson := in_enabledTools input |} in
      agent <- AgentRepo.update tenantId agentId updateData ;;
      match agent with
      | None => throw (AppErr (agentNotFoundError agentId requestId))
      | Some agent => ret (inr agent)
      end
  end.

End AgentService.

(* ===================================================================== *)
(** ** services/SessionService.ts *)
(* ===================================================================== *)

Module SessionService.
Import Errors Store Ids.

(** [CreateSessionInput]; [metadataJson] stands for the text that
    [JSON.stringify(input.metadata || {})] yields. *)
Record CreateSessionInput := {
  agentId : string;
  customerId : string;
  metadataJson : string
}.

(** [createSession]. *)
Definition createSession (tenantId : string) (input : CreateSessionInput)
    (requestId : string) : M SessionRepo.Session :=
  agent <- AgentRepo.findById tenantId (agentId input) ;;
  match agent with
  | None => throw (AppErr (agentNotFoundError (agentId input) requestId))
  | Some _ =>
      sessionId <- generateSessionId ;;
      SessionRepo.create
        {| SessionRepo.d_id := sessionId;
           SessionRepo.d_tenantId := tenantId;
           SessionRepo.d_agentId := agentId input;
           SessionRepo.d_customerId := customerId input;
           SessionRepo.d_metadataJson := metadataJson input |}
  end.

(** [getSession]. *)
Definition getSession (tenantId sessionId requestId : string)
  : M SessionRepo.Session :=
  session <- SessionRepo.findById tenantId sessionId ;;
  match session with
  | None => throw (AppErr (sessionNotFoundError sessionId requestId))
  | Some session => ret session
  end.

(** [listSessions]. *)
Definition listSessions (tenantId : string)
    (filters : option SessionRepo.SessionFilters) : M (list SessionRepo.Session) :=
  SessionRepo.findAll tenantId filters.

(** [closeSession]. *)
Definition closeSession (tenantId sessionId requestId : string)
  : M SessionRepo.Session :=
  session <- SessionRepo.closeSession tenantId sessionId ;;
  match session with
  | None => throw (AppErr (sessionNotFoundError sessionId requestId))
  | Some session => ret session
  end.

End SessionService.

(* ===================================================================== *)
(** ** Buffers (the byte arrays of the voice channel) *)
(* ===================================================================== *)

Module Buffer.

(** A [Buffer] is the list of its bytes.  An operation that throws a
    RangeError in the source returns [None].  (Allocation is taken to
    succeed for every size that is not negative.) *)
Definition alloc (size : Z) : option (list Z) :=
  if size <? 0 then None else Some (replicate (Z.to_nat size) 0).

(** [buf.write(s, offset)] for a string of ASCII characters: the bytes
    that fit are written. *)
Definition write (s : string) (offset : nat) (buf : list Z) : list Z :=
  list_inserts offset (Sha256.bytes_of_string s) buf.

(** The [width] bytes of [value], least significant first. *)
Definition le_bytes (width : nat) (value : Z) : list Z :=
  map (fun i => Z.shiftr value (8 * Z.of_nat i) mod 256) (seq 0 width).

Definition writeUIntLE (width : nat) (value : Z) (offset : nat) (buf : list Z)
  : option (list Z) :=
  if (0 <=? value) && (value <? 2 ^ (8 * Z.of_nat width)) &&
     (offset + width <=? length buf)%nat
  then Some (list_inserts offset (le_bytes width value) buf)
  else None.

Definition writeUInt32LE := writeUIntLE 4.
Definition writeUInt16LE := writeUIntLE 2.

Definition readUInt32LE (offset : nat) (buf : list Z) : option Z :=
  match buf !! offset, buf !! (offset + 1)%nat, buf !! (offset + 2)%nat,
        buf !! (offset + 3)%nat with
  | Some b0, Some b1, Some b2, Some b3 =>
      Some (b0 + b1 * 2 ^ 8 + b2 * 2 ^ 16 + b3 * 2 ^ 24)
  | _, _, _, _ => None
  end.

(** [buf.toString('ascii', start, end)]: the top bit of every byte is
    dropped. *)
Fixpoint string_of_bytes (bs : list Z) : string :=
  match bs with
  | [] => EmptyString
  | b :: rest => String (ascii_of_N (Z.to_N b)) (string_of_bytes rest)
  end.

Definition toString_ascii (start stop : nat) (buf : list Z) : string :=
  string_of_bytes
    (map (fun b => Z.land b 127) (firstn (stop - start) (skipn start buf))).

(** [buf.toString('base64')]. *)
Definition base64_char (n : Z) : ascii :=
  if n <? 26 then ascii_of_N (Z.to_N (65 + n))
  else if n <? 52 then ascii_of_N (Z.to_N (71 + n))
  else if n <? 62 then ascii_of_N (Z.to_N (n - 4))
  else if n =? 62 then "+"%char
  else "/"%char.

Fixpoint toString_base64 (bs : list Z) : string :=
  match bs with
  | [] => EmptyString
  | [b1] =>
      String (base64_char (b1 / 4))
        (String (base64_char (b1 mod 4 * 16)) "==")
  | [b1; b2] =>
      String (base64_char (b1 / 4))
        (String (base64_char (b1 mod 4 * 16 + b2 / 16))
           (String (base64_char (b2 mod 16 * 4)) "="))
  | b1 :: b2 :: b3 :: rest =>
      String (base64_char (b1 / 4))
        (String (base64_char (b1 mod 4 * 16 + b2 / 16))
           (String (base64_char (b2 mod 16 * 4 + b3 / 64))
              (String (base64_char (b3 mod 64)) (toString_base64 rest))))
  end.

End Buffer.

(* ===================================================================== *)
(** ** channels/voice: mockStt.ts, mockTts.ts, VoiceService.ts *)
(* ===================================================================== *)

Module MockStt.

Definition phrases : list string :=
  [ "Hello, I would like to inquire about your services.";
    "Can you help me with my account settings?";
    "I'm interested in learning more about your pricing plans.";
    "What are the features available in the premium tier?";
    "I need assistance with setting up my profile.";
    "Could you explain how the dashboard works?";
    "I'd like to report an issue I encountered.";
    "How do I upgrade my subscription?";
    "Can you provide more details about the API?";
    "I'm looking for information about your support options." ].

(** [x ? ... : ...] and [x || ...] on a number that may be undefined or
    null: the number when it is there and not zero. *)
Definition truthy (x : option Z) : option Z :=
  match x with
  | Some v => if v =? 0 then None else Some v
  | None => None
  end.

(** [transcribeAudio]. *)
Definition transcribeAudio (audioBuffer : list Z) (audioDurationMs : option Z)
  : string :=
  let sizeKb := Pricing.Math_round (inject_Z (Z.of_nat (length audioBuffer)) / 1024) in
  let duration :=
    match truthy audioDurationMs with
    | Some ms => pretty (Pricing.Math_round (inject_Z ms / 1000))
    | None => "unknown"
    end in
  let hash := (length audioBuffer mod 10)%nat in
  let selectedPhrase := nth hash phrases EmptyString in
  selectedPhrase +:+ " (Mock transcript: " +:+ pretty sizeKb +:+ "KB audio, " +:+
  duration +:+ "s duration)".

(** [extractAudioDuration]; [None] is null.  Every read lies inside the
    first 44 bytes, so the [catch] branch is never taken. *)
Definition extractAudioDuration (audioBuffer : list Z) : option Z :=
  if (length audioBuffer <? 44)%nat then None
  else if negb (String.eqb (Buffer.toString_ascii 0 4 audioBuffer) "RIFF") then None
  else if negb (String.eqb (Buffer.toString_ascii 8 12 audioBuffer) "WAVE") then None
  else
    match Buffer.readUInt32LE 40 audioBuffer, Buffer.readUInt32LE 28 audioBuffer with
    | Some dataSize, Some byteRate =>
        if byteRate =? 0 then None
        else
          let durationSeconds := (inject_Z dataSize / inject_Z byteRate)%Q in
          Some (Pricing.Math_round (durationSeconds * 1000))
    | _, _ => None
    end.

End MockStt.

Module MockTts.

Record AudioResponse := {
  buffer : list Z;
  mimeType : string;
  durationMs : Z
}.

(** [generateSilentWav]: a 44-byte header and [dataSize] zero bytes;
    [None] when an allocation or a write throws a RangeError. *)
Definition generateSilentWav (durationMs : Z) : option (list Z) :=
  let sampleRate := 22050 in
  let numChannels := 1 in
  let bitsPerSample := 16 in
  let byteRate := sampleRate * numChannels * bitsPerSample / 8 in
  let blockAlign := numChannels * bitsPerSample / 8 in
  let numSamples := sampleRate * durationMs / 1000 in
  let dataSize := numSamples * blockAlign in
  let fileSize := 44 + dataSize in
  buffer ← Buffer.alloc fileSize;
  (* RIFF header *)
  let buffer := Buffer.write "RIFF" 0 buffer in
  buffer ← Buffer.writeUInt32LE (fileSize - 8) 4 buffer;
  let buffer := Buffer.write "WAVE" 8 buffer in
  (* fmt chunk *)
  let buffer := Buffer.write "fmt " 12 buffer in
  buffer ← Buffer.writeUInt32LE 16 16 buffer;
  buffer ← Buffer.writeUInt16LE 1 20 buffer;
  buffer ← Buffer.writeUInt16LE numChannels 22 buffer;
  buffer ← Buffer.writeUInt32LE sampleRate 24 buffer;
  buffer ← Buffer.writeUInt32LE byteRate 28 buffer;
  buffer ← Buffer.writeUInt16LE blockAlign 32 buffer;
  buffer ← Buffer.writeUInt16LE bitsPerSample 34 buffer;
  (* data chunk *)
  let buffer := Buffer.write "data" 36 buffer in
  buffer ← Buffer.writeUInt32LE dataSize 40 buffer;
  Some buffer.

(** [synthesizeSpeech]. *)
Definition synthesizeSpeech (text : string) : option AudioResponse :=
  let wordCount := Z.of_nat (JsString.split_ws_length text) in
  let durationSeconds := Z.max 1 (Qceiling (inject_Z wordCount / 2.5)) in
  let durationMs := durationSeconds * 1000 in
  buffer ← generateSilentWav durationMs;
  Some {| buffer := buffer; mimeType := "audio/wav"; durationMs := durationMs |}.

End MockTts.

Module VoiceService.
Import Types Errors Store.

Record ProcessVoiceMessageRequest := {
  tenantId : string;
  sessionId : string;
  audioBuffer : list Z;
  audioDurationMs : option Z;
  idempotencyKey : string;
  requestId : string
}.

Record VoiceAssistant := {
  va_id : string;
  va_content : string;
  va_createdAt : string
}.

Record VoiceAudio := {
  au_mimeType : string;
  au_base64 : string;
  au_durationMs : Z
}.

Record VoiceMessageResponse := {
  vr_sessionId : string;
  vr_transcriptText : string;
  vr_assistant : VoiceAssistant;
  vr_audio : VoiceAudio;
  vr_metadata : ResponseMetadata;      (* ...conversationResponse.metadata *)
  vr_channel : string;
  vr_audioDurationMs : option Z
}.

(** [processVoiceMessage].  An envelope that [sendMessage] replays comes
    out of [JSON.parse], where [message.createdAt] is the ISO text and no
    [Date]: it is the envelope whose [replayed] flag is set, and calling
    [toISOString] on it throws a TypeError. *)
Definition processVoiceMessage (request : ProcessVoiceMessageRequest)
  : M VoiceMessageResponse :=
  (* STEP 1: validate session *)
  session <- SessionRepo.findById (tenantId request) (sessionId request) ;;
  match session with
  | None =>
      throw (AppErr (sessionNotFoundError (sessionId request) (requestId request)))
  | Some _ =>
  (* STEP 2: transcribe audio to text *)
  let detectedDuration :=
    match MockStt.truthy (audioDurationMs request) with
    | Some ms => Some ms
    | None => MockStt.truthy (MockStt.extractAudioDuration (audioBuffer request))
    end in
  let transcriptText :=
    MockStt.transcribeAudio (audioBuffer request) detectedDuration in
  (* STEP 3: call the message pipeline *)
  conversationResponse <-
    ConversationService.sendMessage (tenantId request) (sessionId request)
      (Some (idempotencyKey request)) transcriptText (requestId request) ;;
  (* STEP 4: synthesize the assistant response *)
  match MockTts.synthesizeSpeech (rm_content (message conversationResponse)) with
  | None => throw (JsError "RangeError")
  | Some audioResponse =>
  (* STEP 5: build the voice response *)
  if replayed (md_idempotency (metadata conversationResponse)) then
    throw (JsError
             "conversationResponse.message.createdAt.toISOString is not a function")
  else
    ret {| vr_sessionId := sessionId request;
           vr_transcriptText := transcriptText;
           vr_assistant :=
             {| va_id := rm_id (message conversationResponse);
                va_content := rm_content (message conversationResponse);
                va_createdAt :=
                  Json.toISOString (rm_createdAt (message conversationResponse)) |};
           vr_audio :=
             {| au_mimeType := MockTts.mimeType audioResponse;
                au_base64 := Buffer.toString_base64 (MockTts.buffer audioResponse);
                au_durationMs := MockTts.durationMs audioResponse |};
           vr_metadata := metadata conversationResponse;
           vr_channel := "voice";
           vr_audioDurationMs := detectedDuration |}
  end
  end.

End VoiceService.

(* ===================================================================== *)
(** ** Vocabulary of the properties *)
(* ===================================================================== *)

Module Props.
Import Providers Vendors RetryPolicy Types Errors Store Ids ProviderCaller.
Import ConversationService.


Definition attempt_retryable (a : ProviderCallAttempt) : bool :=
  match at_httpStatus a with
  | Some s => (500 <=? s) || (s =? 429)
  | None => false
  end.

Definition event_row (context : CallContext) (a : ProviderCallAttempt)
    (row : ProviderCallEvent) : Prop :=
  e_tenantId row = c_tenantId context /\
  e_sessionId row = c_sessionId context /\
  e_agentId row = c_agentId context /\
  e_requestId row = c_requestId context /\
  e_provider row = at_provider a /\
  e_status row = at_status a /\
  e_httpStatus row = at_httpStatus a /\
  e_retries row = at_retries a /\
  e_errorCode row = at_errorCode a.

Definition caller_event (tenant : string) (ev : Event) : Prop :=
  match ev with
  | VendorCall _ | Sleep _ => True
  | DbInsert ProviderCallEvents o => o = tenant
  | _ => False
  end.

Definition is_vendor_call (ev : Event) : bool :=
  match ev with VendorCall _ => true | _ => false end.

Definition vendor_calls (evs : list Event) : nat :=
  length (List.filter is_vendor_call evs).

Definition call_result (provider : ProviderAdapter) (request : ProviderRequest)
    (config : RetryConfig) (k : nat) : NormalizedResponse + Thrown :=
  snd (withTimeout (call provider request k) (timeoutMs config)
         ("Provider " +:+ name provider +:+ " timed out after " +:+
           pretty (timeoutMs config) +:+ "ms")).

Definition same_tables_but_attempts (w w' : World) : Prop :=
  agents w' = agents w /\ sessions w' = sessions w /\
  messages w' = messages w /\ usageEvents w' = usageEvents w /\
  idempotencyRecords w' = idempotencyRecords w.

Definition retry_outcome (remaining : nat) (new : list ProviderCallAttempt)
    (r : ProviderCallResult) : Prop :=
  (forall k a, new !! k = Some a -> (S k < length new)%nat ->
     at_status a = failed /\ attempt_retryable a = true) /\
  (if r_success r
   then exists resp a, r_response r = Some resp /\ last new = Some a /\
          at_status a = success /\ at_httpStatus a = Some 200
   else r_response r = None /\
        exists e a, r_error r = Some e /\ last new = Some a /\
          at_status a = failed /\ at_httpStatus a = Some (statusCode e) /\
          ((length new < S remaining)%nat -> isRetryable e = false)).

Definition RetryRun (provider : ProviderAdapter) (request : ProviderRequest)
    (config : RetryConfig) (context : CallContext)
    (remaining attempt : nat) (w : World)
    (new : list ProviderCallAttempt) (r : ProviderCallResult) (w' : World) : Prop :=
  r_providerUsed r = name provider /\ r_fallbackUsed r = false /\
  (1 <= length new <= S remaining)%nat /\
  map at_retries new = seq attempt (length new) /\
  Forall (fun a => at_provider a = name provider) new /\
  same_tables_but_attempts w w' /\
  (exists rows, providerCallEvents w' = providerCallEvents w ++ rows /\
                Forall2 (event_row context) new rows) /\
  vendorCalls w' = (vendorCalls w + length new)%nat /\
  (exists evs, trace w' = trace w ++ evs /\
               Forall (caller_event (c_tenantId context)) evs /\
               vendor_calls evs = length new) /\
  retry_outcome remaining new r /\
  (forall k a, new !! k = Some a ->
     match call_result provider request config (vendorCalls w + k) with
     | inl resp => at_status a = success /\ r_response r = Some resp
     | inr _ => at_status a = failed
     end).

Definition last_status (r : ProviderCallResult) : Prop :=
  if r_success r
  then exists resp a, r_response r = Some resp /\ last (r_attempts r) = Some a /\
         at_status a = success
  else r_response r = None /\
       exists a, last (r_attempts r) = Some a /\ at_status a = failed.

Definition FallbackRun (primary : ProviderAdapter) (fallback : option ProviderAdapter)
    (context : CallContext) (w : World) (r : ProviderCallResult) (w' : World) : Prop :=
  same_tables_but_attempts w w' /\
  (exists rows, providerCallEvents w' = providerCallEvents w ++ rows /\
                Forall2 (event_row context) (r_attempts r) rows) /\
  (exists evs, trace w' = trace w ++ evs /\
               Forall (caller_event (c_tenantId context)) evs /\
               vendor_calls evs = length (r_attempts r)) /\
  (r_providerUsed r = name primary \/
   exists fb, fallback = Some fb /\ r_providerUsed r = name fb) /\
  last_status r.


Definition idemKey (T K : string) : string * string * string := (T, "send_message", K).

Definition placeholder (T S c : string) (env : Env) (w : World) : IdempotencyRow :=
  {| i_id := "idem_" +:+ uuidv4 env (uuids w);
     i_sessionId := Some S;
     i_requestHash :=
       Hash.computeRequestHash (now w)
         {| Hash.tenantId := T; Hash.sessionId := S; Hash.content := c;
            Hash.timestamp := None |};
     i_responseJson := None;
     i_createdAt := now w |}.

(** The world in which [checkIdempotency] hands over to step 3. *)
Inductive Began (T S K c : string) (env : Env) (w : World) : World -> Prop :=
| Began_existing (rec : IdempotencyRow) :
    idempotencyRecords w !! idemKey T K = Some rec ->
    i_responseJson rec = None ->
    Began T S K c env w
      (with_trace (with_uuids w (Datatypes.S (uuids w)))
         (trace w ++ [DbRead IdempotencyRecords [T]; DbRead IdempotencyRecords [T]]))
| Began_new :
    idempotencyRecords w !! idemKey T K = None ->
    Began T S K c env w
      (with_trace
         (with_idempotencyRecords (with_uuids w (Datatypes.S (uuids w)))
            (<[idemKey T K := placeholder T S c env w]> (idempotencyRecords w)))
         (trace w ++ [DbRead IdempotencyRecords []; DbInsert IdempotencyRecords T])).

Definition touch_session (r : SessionRow) (t : Z) : SessionRow :=
  {| s_tenantId := s_tenantId r; s_agentId := s_agentId r;
     s_customerId := s_customerId r; s_metadataJson := s_metadataJson r;
     s_status := s_status r; s_createdAt := s_createdAt r;
     s_lastActivityAt := t |}.

Definition user_message (T S c : string) (env : Env) (w : World) : Message :=
  {| m_id := "msg_" +:+ uuidv4 env (uuids w); m_tenantId := T;
     m_sessionId := S; m_role := "user"; m_content := c;
     m_createdAt := now w |}.

Definition history (T S : string) (msgs : list Message) : list Message :=
  MessageRepo.orderBy_createdAt_asc
    (List.filter (MessageRepo.in_session T S) msgs).

(** The world after steps 3 to 5 when session and agent were found. *)
Definition after_user_turn (T S c : string) (env : Env) (w : World)
    (srow : SessionRow) : World :=
  with_trace
    (with_sessions
       (with_messages (with_uuids w (Datatypes.S (uuids w)))
          (messages w ++ [user_message T S c env w]))
       (<[S := touch_session srow (now w)]> (sessions w)))
    (trace w ++
     [DbRead Sessions [T]; DbRead Agents [T]; DbInsert Messages T;
      DbUpdate Sessions T;
      DbRead Messages
        (map m_tenantId (history T S (messages w ++ [user_message T S c env w])))]).

Definition known_provider (p : ProviderAdapter) : Prop :=
  name p = "vendorA" \/ name p = "vendorB".

Inductive PrepareRun (T S c rid : string) (env : Env) (w : World)
  : Result Prepared -> World -> Prop :=
| Prepare_no_session :
    (forall r, sessions w !! S = Some r -> s_tenantId r <> T) ->
    PrepareRun T S c rid env w
      (Throw (AppErr (sessionNotFoundError S rid)))
      (with_trace w (trace w ++ [DbRead Sessions []]))
| Prepare_no_agent (srow : SessionRow) :
    sessions w !! S = Some srow -> s_tenantId srow = T ->
    (forall r, agents w !! s_agentId srow = Some r -> a_tenantId r <> T) ->
    PrepareRun T S c rid env w
      (Throw (AppErr (agentNotFoundError (s_agentId srow) rid)))
      (with_trace w (trace w ++ [DbRead Sessions [T]; DbRead Agents []]))
| Prepare_unknown_provider (srow : SessionRow) (arow : AgentRow) (msg : string) :
    sessions w !! S = Some srow -> s_tenantId srow = T ->
    agents w !! s_agentId srow = Some arow -> a_tenantId arow = T ->
    PrepareRun T S c rid env w (Throw (JsError msg)) (after_user_turn T S c env w srow)
| Prepare_ok (srow : SessionRow) (arow : AgentRow) (p : Prepared) :
    sessions w !! S = Some srow -> s_tenantId srow = T ->
    agents w !! s_agentId srow = Some arow -> a_tenantId arow = T ->
    p_agent p = {| AgentRepo.id := s_agentId srow; AgentRepo.row := arow |} ->
    known_provider (p_primaryProvider p) ->
    (forall fb, p_fallbackProvider p = Some fb -> known_provider fb) ->
    PrepareRun T S c rid env w (Ok p) (after_user_turn T S c env w srow).

Definition assistant_message (T S : string) (resp : NormalizedResponse)
    (env : Env) (w : World) : Message :=
  {| m_id := "msg_" +:+ uuidv4 env (uuids w); m_tenantId := T;
     m_sessionId := S; m_role := "assistant"; m_content := text resp;
     m_createdAt := now w |}.

Definition usage_event (T S rid : string) (agent : AgentRepo.Agent)
    (r : ProviderCallResult) (resp : NormalizedResponse) (cost : Q)
    (env : Env) (w : World) : UsageEvent :=
  {| u_id := "evt_" +:+ uuidv4 env (Datatypes.S (uuids w)); u_tenantId := T;
     u_sessionId := S; u_agentId := AgentRepo.id agent;
     u_provider := r_providerUsed r; u_tokensIn := tokensIn resp;
     u_tokensOut := tokensOut resp; u_costUsd := cost;
     u_createdAt := now w; u_requestId := rid |}.

Definition envelope (T S K rid : string) (agent : AgentRepo.Agent)
    (r : ProviderCallResult) (resp : NormalizedResponse) (cost : Q)
    (env : Env) (w : World) : SendMessageResponse :=
  {| message :=
       {| rm_id := "msg_" +:+ uuidv4 env (uuids w); rm_sessionId := S;
          rm_role := "assistant"; rm_content := text resp;
          rm_createdAt := now w |};
     metadata :=
       {| md_agentId := AgentRepo.id agent;
          md_providerUsed := r_providerUsed r;
          md_primaryAttempted := a_primaryProvider (AgentRepo.row agent);
          md_fallbackAttempted := a_fallbackProvider (AgentRepo.row agent);
          md_fallbackUsed := r_fallbackUsed r;
          md_attempts := map responseAttempt (r_attempts r);
          md_usage :=
            {| ru_tokensIn := tokensIn resp; ru_tokensOut := tokensOut resp;
               ru_costUsd := cost;
               ru_usdPer1kTokens :=
                 if String.eqb (r_providerUsed r) "vendorA"
                 then 0.002%Q else 0.003%Q |};
          md_idempotency := {| key := K; replayed := false |};
          md_requestId := rid |} |}.

Definition complete_row (rec : IdempotencyRow) (e : SendMessageResponse)
  : IdempotencyRow :=
  {| i_id := i_id rec; i_sessionId := i_sessionId rec;
     i_requestHash := i_requestHash rec; i_responseJson := Some e;
     i_createdAt := i_createdAt rec |}.

(** The world after steps 8 to 11. *)
Definition after_assistant_turn (T S K rid : string) (agent : AgentRepo.Agent)
    (r : ProviderCallResult) (resp : NormalizedResponse) (cost : Q)
    (rec : IdempotencyRow) (env : Env) (w : World) : World :=
  with_trace
    (with_idempotencyRecords
       (with_usageEvents
          (with_messages (with_uuids w (Datatypes.S (Datatypes.S (uuids w))))
             (messages w ++ [assistant_message T S resp env w]))
          (usageEvents w ++ [usage_event T S rid agent r resp cost env w]))
       (<[idemKey T K :=
            complete_row rec (envelope T S K rid agent r resp cost env w)]>
          (idempotencyRecords w)))
    (trace w ++
     [DbInsert Messages T; DbInsert UsageEvents T;
      DbUpdate IdempotencyRecords T]).

Definition allFailed (agent : AgentRepo.Agent) (r : ProviderCallResult)
    (rid : string) : Exception :=
  AppErr (allProvidersFailedError
            (ProvidersDetails (a_primaryProvider (AgentRepo.row agent))
               (a_fallbackProvider (AgentRepo.row agent)) (r_attempts r))
            rid).

Inductive CompleteRun (T S K rid : string) (agent : AgentRepo.Agent)
    (r : ProviderCallResult) (env : Env) (w : World)
  : Result SendMessageResponse -> World -> Prop :=
| Complete_failed :
    (if r_success r then r_response r else None) = None ->
    CompleteRun T S K rid agent r env w (Throw (allFailed agent r rid)) w
| Complete_ok (resp : NormalizedResponse) (cost : Q) (rec : IdempotencyRow) :
    r_success r = true -> r_response r = Some resp ->
    Pricing.calculateCost (r_providerUsed r) (tokensIn resp) (tokensOut resp)
      = inl cost ->
    idempotencyRecords w !! idemKey T K = Some rec ->
    CompleteRun T S K rid agent r env w
      (Ok (envelope T S K rid agent r resp cost env w))
      (after_assistant_turn T S K rid agent r resp cost rec env w).

Inductive SendRun (T S K c rid : string) (env : Env) (w : World)
  : Result SendMessageResponse -> World -> Prop :=
| Send_replay (rec : IdempotencyRow) (stored : SendMessageResponse) :
    idempotencyRecords w !! idemKey T K = Some rec ->
    i_responseJson rec = Some stored ->
    SendRun T S K c rid env w
      (Ok (set_replayed stored true))
      (with_trace w (trace w ++ [DbRead IdempotencyRecords [T]]))
| Send_unprepared (w2 : World) (e : Exception) (w5 : World) :
    Began T S K c env w w2 ->
    PrepareRun T S c rid env w2 (Throw e) w5 ->
    SendRun T S K c rid env w (Throw e) w5
| Send_processed (w2 : World) (p : Prepared) (w5 : World)
    (r : ProviderCallResult) (w7 : World)
    (res : Result SendMessageResponse) (w' : World) :
    Began T S K c env w w2 ->
    PrepareRun T S c rid env w2 (Ok p) w5 ->
    callProviderWithFallback (p_primaryProvider p) (p_fallbackProvider p)
      (p_conversationHistory p) DEFAULT_RETRY_CONFIG
      (callContext T S rid (p_agent p)) env w5 = (Ok r, w7) ->
    FallbackRun (p_primaryProvider p) (p_fallbackProvider p)
      (callContext T S rid (p_agent p)) w5 r w7 ->
    CompleteRun T S K rid (p_agent p) r env w7 res w' ->
    SendRun T S K c rid env w res w'.


Definition owned_by (tenant : string) (ev : Event) : Prop :=
  match ev with
  | DbRead _ owners => Forall (fun o => o = tenant) owners
  | DbInsert _ o | DbUpdate _ o => o = tenant
  | VendorCall _ | Sleep _ => True
  end.

Definition foreign {A} (owner : A -> string) (tenant : string) (rows : list A) : list A :=
  List.filter (fun r => negb (String.eqb (owner r) tenant)) rows.

Definition foreign_rows_untouched (tenant : string) (w w' : World) : Prop :=
  (forall id r, a_tenantId r <> tenant ->
     agents w' !! id = Some r <-> agents w !! id = Some r) /\
  (forall id r, s_tenantId r <> tenant ->
     sessions w' !! id = Some r <-> sessions w !! id = Some r) /\
  (forall t sc k, t <> tenant ->
     idempotencyRecords w' !! (t, sc, k) = idempotencyRecords w !! (t, sc, k)) /\
  foreign m_tenantId tenant (messages w') = foreign m_tenantId tenant (messages w) /\
  foreign e_tenantId tenant (providerCallEvents w')
    = foreign e_tenantId tenant (providerCallEvents w) /\
  foreign u_tenantId tenant (usageEvents w') = foreign u_tenantId tenant (usageEvents w).

Definition isolated_step (tenant : string) (w w' : World) : Prop :=
  (exists evs, trace w' = trace w ++ evs /\ Forall (owned_by tenant) evs) /\
  foreign_rows_untouched tenant w w'.

Definition isolates {A} (tenant : string) (m : M A) (env : Env) (w : World) : Prop :=
  isolated_step tenant w (snd (m env w)).

Definition is_session_update (ev : Event) : bool :=
  match ev with DbUpdate Sessions _ => true | _ => false end.

Definition no_session_update (evs : list Event) : Prop :=
  Forall (fun ev => is_session_update ev = false) evs.

(** The session table is as it was and no vendor was called. *)
Definition session_untouched (w w' : World) : Prop :=
  sessions w' = sessions w /\
  exists evs, trace w' = trace w ++ evs /\ vendor_calls evs = 0%nat /\
              no_session_update evs.

(** The only change to the session table is [lastActivityAt] of session
    [S], written right after the user message and before any vendor call. *)
Definition session_touched (T S : string) (w w' : World) : Prop :=
  exists srow pre post,
    sessions w !! S = Some srow /\ s_tenantId srow = T /\
    sessions w' = <[S := touch_session srow (now w)]> (sessions w) /\
    trace w' = trace w ++ pre ++ [DbInsert Messages T; DbUpdate Sessions T] ++ post /\
    vendor_calls pre = 0%nat /\ no_session_update (pre ++ post).

End Props.

(* ===================================================================== *)
(** ** Concrete tenants, vendors and worlds *)
(* ===================================================================== *)

Module Scenario.
Import Providers Vendors RetryPolicy Types Errors Store Ids ProviderCaller Props.
Import ConversationService.


Definition demo_agent : AgentRow :=
  {| a_tenantId := "tnt_1"; a_name := "Support"; a_primaryProvider := "vendorA";
     a_fallbackProvider := Some "vendorB"; a_systemPrompt := "You are helpful.";
     a_enabledTools := []; a_createdAt := 1704067000000;
     a_updatedAt := 1704067000000 |}.

Definition demo_session : SessionRow :=
  {| s_tenantId := "tnt_1"; s_agentId := "agt_1"; s_customerId := "cust_1";
     s_metadataJson := "{}"; s_status := "active";
     s_createdAt := 1704067100000; s_lastActivityAt := 1704067100000 |}.

Definition other_session : SessionRow :=
  {| s_tenantId := "tnt_2"; s_agentId := "agt_2"; s_customerId := "cust_9";
     s_metadataJson := "{}"; s_status := "active";
     s_createdAt := 1704067100000; s_lastActivityAt := 1704067100000 |}.

Definition demo_world : World :=
  {| agents := {[ "agt_1" := demo_agent ]};
     sessions := {[ "ses_1" := demo_session ]};
     messages := []; providerCallEvents := []; usageEvents := [];
     idempotencyRecords := ∅; now := 1704067200000; uuids := 0;
     vendorCalls := 0; backoffs := 0; trace := [] |}.

(** A second tenant's session next to the first one's. *)
Definition shared_world : World :=
  with_sessions demo_world (<[ "ses_2" := other_session ]> (sessions demo_world)).

Definition vendorA_ok : Mock VendorAResponse :=
  fun _ _ => MockSettles 120
    (inl {| outputText := "Hello!"; va_tokensIn := 100; va_tokensOut := 200;
            va_latencyMs := 120 |}).

Definition vendorA_down : Mock VendorAResponse :=
  fun _ _ => MockSettles 50 (inr (VendorError "Internal server error" 500 None)).

Definition vendorB_ok : Mock VendorBResponse :=
  fun _ _ => MockSettles 100
    (inl {| choices := ["Hi there"]; input_tokens := 10; output_tokens := 20 |}).

Definition vendorB_limited : Mock VendorBResponse :=
  fun _ _ => MockSettles 100 (inr (VendorError "Rate limit exceeded" 429 (Some 750))).

Definition demo_env (a : Mock VendorAResponse) (b : Mock VendorBResponse) : Env :=
  {| vendorAMock := a; vendorBMock := b;
     Math_random := fun _ => (1 # 2)%Q; uuidv4 := fun n => pretty n |}.

(** A placeholder left by a send that is still in flight. *)
Definition inflight_row : IdempotencyRow :=
  {| i_id := "idem_a"; i_sessionId := Some "ses_1"; i_requestHash := "00";
     i_responseJson := None; i_createdAt := 1704067199000 |}.

Definition inflight_world : World :=
  with_idempotencyRecords demo_world {[ idemKey "tnt_1" "K1" := inflight_row ]}.

(** A completed send under key K1. *)
Definition stored_envelope : SendMessageResponse :=
  {| message :=
       {| rm_id := "msg_1"; rm_sessionId := "ses_1"; rm_role := "assistant";
          rm_content := "Hello!"; rm_createdAt := 1704067199120 |};
     metadata :=
       {| md_agentId := "agt_1"; md_providerUsed := "vendorA";
          md_primaryAttempted := "vendorA"; md_fallbackAttempted := Some "vendorB";
          md_fallbackUsed := false;
          md_attempts :=
            [{| ra_provider := "vendorA"; ra_status := success;
                ra_httpStatus := Some 200; ra_latencyMs := 120; ra_retries := 0;
                ra_errorCode := None |}];
          md_usage :=
            {| ru_tokensIn := 100; ru_tokensOut := 200; ru_costUsd := 0.0006%Q;
               ru_usdPer1kTokens := 0.002%Q |};
          md_idempotency := {| key := "K1"; replayed := false |};
          md_requestId := "req_1" |} |}.

Definition completed_row : IdempotencyRow :=
  {| i_id := "idem_a"; i_sessionId := Some "ses_1"; i_requestHash := "00";
     i_responseJson := Some stored_envelope; i_createdAt := 1704067199000 |}.

Definition completed_world : World :=
  with_idempotencyRecords demo_world {[ idemKey "tnt_1" "K1" := completed_row ]}.

(** Two sends under the same key K1 whose steps interleave: A runs steps 1
    and 2, B runs from start to end, then A runs steps 3 to 11. *)
Definition interleaved_sends (env : Env) (w : World) : World :=
  let wA := snd (checkIdempotency "tnt_1" "ses_1" "K1" "hello" env w) in
  let wB := snd (sendMessage "tnt_1" "ses_1" (Some "K1") "hello" "req_B" env wA) in
  match prepareSend "tnt_1" "ses_1" "hello" "req_A" env wB with
  | (Ok p, w5) =>
      match callProviderWithFallback (p_primaryProvider p) (p_fallbackProvider p)
              (p_conversationHistory p) DEFAULT_RETRY_CONFIG
              (callContext "tnt_1" "ses_1" "req_A" (p_agent p)) env w5 with
      | (Ok r, w7) =>
          snd (completeSend "tnt_1" "ses_1" "K1" "req_A" (p_agent p) r env w7)
      | (Throw _, w7) => w7
      end
  | (Throw _, w5) => w5
  end.

(** A send during which both vendors keep failing, cut at the points where
    [sendMessage] passes from one part to the next. *)
Definition failing_env : Env := demo_env vendorA_down vendorB_limited.

Definition failing_w2 : World :=
  snd (checkIdempotency "tnt_1" "ses_1" "K1" "hello" failing_env demo_world).

Definition failing_prepared : Prepared :=
  {| p_agent := {| AgentRepo.id := "agt_1"; AgentRepo.row := demo_agent |};
     p_conversationHistory :=
       {| rq_systemPrompt := "You are helpful.";
          rq_messages := [{| cm_role := "user"; cm_content := "hello" |}];
          rq_enabledTools := [] |};
     p_primaryProvider := VendorAAdapter vendorA_down;
     p_fallbackProvider := Some (VendorBAdapter vendorB_limited) |}.

Definition failing_w5 : World :=
  snd (prepareSend "tnt_1" "ses_1" "hello" "req_1" failing_env failing_w2).

Definition failing_call : Result ProviderCallResult * World :=
  callProviderWithFallback (p_primaryProvider failing_prepared)
    (p_fallbackProvider failing_prepared)
    (p_conversationHistory failing_prepared) DEFAULT_RETRY_CONFIG
    (callContext "tnt_1" "ses_1" "req_1" (p_agent failing_prepared))
    failing_env failing_w5.

Definition failing_result : ProviderCallResult :=
  match fst failing_call with
  | Ok r => r
  | Throw _ =>
      {| r_success := true; r_response := None; r_error := None;
         r_attempts := []; r_providerUsed := EmptyString; r_fallbackUsed := false |}
  end.


End Scenario.

(* ===================================================================== *)
(** * Properties *)
(* ===================================================================== *)

(* --------------------------------------------------------------------- *)
(** *** pricing.ts: the cost of a call *)

Section PricingFacts.
Import Pricing.






Example calculateCost_happy_path :
  calculateCost "vendorA" 100 200 = inl 0.000600%Q /\
  calculateCost "vendorB" 100 50 = inl (450 # 1000000)%Q /\
  calculateCost "vendorC" 1 1 = inr "Unknown provider: vendorC".
Proof. repeat split. Qed.

End PricingFacts.

(* --------------------------------------------------------------------- *)
(** *** retryPolicy.ts: the backoff window *)

Section BackoffFacts.
Import Providers RetryPolicy.






End BackoffFacts.

(* --------------------------------------------------------------------- *)
(** *** hash.ts: the request fingerprint *)

Section HashFacts.
Import Hash.

(** The digest and the date format on known values. *)
Example sha256_abc :
  Sha256.sha256_hex "abc"
  = "ba7816bf8f01cfea414140de5dae2223b00361a396177a9cb410ff61f20015ad".
Proof. vm_compute. reflexivity. Qed.

Example sha256_empty :
  Sha256.sha256_hex EmptyString
  = "e3b0c44298fc1c149afbf4c8996fb92427ae41e4649b934ca495991b7852b855".
Proof. vm_compute. reflexivity. Qed.

Example toISOString_samples :
  Json.toISOString 0 = "1970-01-01T00:00:00.000Z" /\
  Json.toISOString 1704067200000 = "2024-01-01T00:00:00.000Z" /\
  Json.toISOString 1709251199999 = "2024-02-29T23:59:59.999Z".
Proof. repeat split; vm_compute; reflexivity. Qed.

Lemma append_nonempty_r (s t : string) : t <> EmptyString -> s +:+ t <> EmptyString.
Proof. destruct s; simpl; [auto | discriminate]. Qed.

Lemma toISOString_nonempty (ms : Z) : Json.toISOString ms <> EmptyString.
Proof.
  unfold Json.toISOString. cbv zeta.
  repeat (apply append_nonempty_r). discriminate.
Qed.

(** C8, as amended: [computeRequestHash] is a function of tenantId,
    sessionId, content and the timestamp; with a non-empty timestamp in the
    data the clock plays no part, and without one the hash is the hash of
    the same data stamped with the current time in ISO format (which is
    what [sendMessage] stores as the fingerprint). *)
Theorem computeRequestHash_timestamp (now now' : Z) (t s c ts : string) :
  ts <> EmptyString ->
  computeRequestHash now
    {| tenantId := t; sessionId := s; content := c; timestamp := Some ts |}
  = computeRequestHash now'
      {| tenantId := t; sessionId := s; content := c; timestamp := Some ts |}
  /\
  computeRequestHash now
    {| tenantId := t; sessionId := s; content := c; timestamp := None |}
  = computeRequestHash now'
      {| tenantId := t; sessionId := s; content := c;
         timestamp := Some (Json.toISOString now) |}.
Proof.
  intros Hts. unfold computeRequestHash; simpl.
  apply String.eqb_neq in Hts. rewrite Hts.
  pose proof (toISOString_nonempty now) as Hn. apply String.eqb_neq in Hn. rewrite Hn.
  split; reflexivity.
Qed.

Lemma computeRequestHash_timestamp_witness :
  computeRequestHash 0
    {| tenantId := "tnt_1"; sessionId := "ses_1"; content := "hello";
       timestamp := Some "2024-01-01T00:00:00Z" |}
  = computeRequestHash 1
      {| tenantId := "tnt_1"; sessionId := "ses_1"; content := "hello";
         timestamp := Some "2024-01-01T00:00:00Z" |}.
Proof.
  apply (proj1 (computeRequestHash_timestamp 0 1 "tnt_1" "ses_1" "hello"
                  "2024-01-01T00:00:00Z" ltac:(discriminate))).
Defined.

(** C8, as stated, fails: the same tenantId, sessionId and content hashed
    one millisecond apart give two different fingerprints. *)
Lemma computeRequestHash_depends_on_clock :
  computeRequestHash 1704067200000
    {| tenantId := "tnt_1"; sessionId := "ses_1"; content := "hello"; timestamp := None |}
  <> computeRequestHash 1704067200001
       {| tenantId := "tnt_1"; sessionId := "ses_1"; content := "hello"; timestamp := None |}.
Proof. vm_compute. discriminate. Qed.

End HashFacts.

(* --------------------------------------------------------------------- *)
(** *** providerCaller.ts: the retry engine and the fallback orchestrator *)

Import Providers Vendors RetryPolicy Types Errors Store Ids ProviderCaller.
Import Props Scenario ConversationService.

Ltac mrun :=
  unfold bind, ret, throw, tryCatch, get, put, emit, ask, Date_now, elapse,
         sleep, drawBackoff, awaitCall, generateEventId, generateMessageId,
         generateIdempotencyId, generateId, ProviderCallEventRepo.create,
         UsageEventRepo.create, MessageRepo.create; simpl.


Lemma last_cons_nonempty {A} (a : A) (l : list A) :
  (1 <= length l)%nat -> last (a :: l) = last l.
Proof. destruct l; simpl; [lia | reflexivity]. Qed.

Lemma attempt_retryable_failed provider latency attempt (e : ProviderError) :
  attempt_retryable
    {| at_provider := provider; at_status := failed;
       at_httpStatus := Some (statusCode e); at_latencyMs := latency;
       at_retries := attempt; at_errorCode := Some (errorCode e);
       at_errorMessage := Some (Providers.message e) |} = isRetryable e.
Proof. reflexivity. Qed.

Ltac leaf :=
  unfold RetryRun, same_tables_but_attempts, retry_outcome; simpl;
  repeat match goal with
  | |- _ /\ _ => split
  | |- Forall _ [_] => constructor; [simpl | constructor]
  | |- exists rows, _ ++ [_] = _ ++ rows /\ _ =>
      eexists; split; [reflexivity | constructor; [unfold event_row; simpl; tauto | constructor]]
  | |- exists evs, (_ ++ [_]) ++ [_] = _ ++ evs /\ _ =>
      eexists; split; [rewrite <- app_assoc; reflexivity |
                       split; [repeat constructor | reflexivity]]
  | |- forall k a, [_] !! k = Some a -> (S k < 1)%nat -> _ => intros ? ? _ ?; lia
  | |- _ = _ => reflexivity
  | |- @eq nat _ _ => lia
  | |- (_ <= _)%nat => lia
  end.

Lemma attemptLoop_run provider request config context env :
  forall remaining attempt attempts w,
  exists r w' new,
    attemptLoop provider request config context remaining attempt attempts env w
      = (Ok r, w') /\
    r_attempts r = attempts ++ new /\
    RetryRun provider request config context remaining attempt w new r w'.
Proof.
  induction remaining as [|remaining IH]; intros attempt attempts w.
  - unfold attemptLoop. mrun.
    pose proof (eq_refl (call_result provider request config (vendorCalls w))) as Hc.
    unfold call_result at 1 in Hc.
    destruct (withTimeout _ _ _) as [elapsed [resp|err]]; simpl in *.
    + do 3 eexists. split; [reflexivity|]. split; [reflexivity|]. leaf.
      * do 2 eexists; repeat split; reflexivity.
      * intros [|k] a Hk; [|destruct k; discriminate Hk].
        injection Hk as <-. rewrite Nat.add_0_r, <- Hc. simpl. auto.
    + do 3 eexists. split; [reflexivity|]. split; [reflexivity|]. leaf.
      * do 2 eexists. repeat split; try reflexivity. intros; lia.
      * intros [|k] a Hk; [|destruct k; discriminate Hk].
        injection Hk as <-. rewrite Nat.add_0_r, <- Hc. simpl. auto.
  - cbn [attemptLoop]. mrun.
    pose proof (eq_refl (call_result provider request config (vendorCalls w))) as Hc.
    unfold call_result at 1 in Hc.
    destruct (withTimeout _ _ _) as [elapsed [resp|err]]; simpl in *.
    + do 3 eexists. split; [reflexivity|]. split; [reflexivity|]. leaf.
      * do 2 eexists; repeat split; reflexivity.
      * intros [|k] a Hk; [|destruct k; discriminate Hk].
        injection Hk as <-. rewrite Nat.add_0_r, <- Hc. simpl. auto.
    + set (pe := match err with ThrownProviderError e => e | ThrownError _ _ => unknownError end) in *.
      destruct (isRetryable pe) eqn:Hretry.
      * match goal with
        | |- context [attemptLoop _ _ _ _ remaining (S attempt) ?atts env ?w2] =>
            destruct (IH (S attempt) atts w2) as (r & w' & new & Hrun & Hatts & HR)
        end.
        exists r, w'. eexists (_ :: new). split; [exact Hrun|].
        split; [rewrite Hatts, <- app_assoc; reflexivity|].
        destruct HR as (Hp & Hf & Hlen & Hidx & Hprov & Hframe & (rows & Hrows & Hrel)
                        & Hcalls & (evs & Htr & Hevs & Hvc) & (Hpre & Hout) & Hres).
        simpl in *.
        unfold RetryRun. simpl.
        split; [exact Hp|]. split; [exact Hf|]. split; [lia|].
        split; [f_equal; exact Hidx|].
        split; [constructor; [reflexivity | exact Hprov]|].
        split; [exact Hframe|].
        split.
        { eexists (_ :: rows). split; [rewrite Hrows, <- app_assoc; reflexivity|].
          constructor; [unfold event_row; simpl; tauto | exact Hrel]. }
        split; [lia|].
        split.
        { eexists (_ :: _ :: _ :: evs). split.
          - rewrite Htr, <- !app_assoc. reflexivity.
          - split; [repeat constructor; exact Hevs | unfold vendor_calls in *; simpl; f_equal; exact Hvc]. }
        split.
        { split.
          - intros [|k] a Hk Hlt; simpl in Hk.
            + injection Hk as <-. split; [reflexivity|].
              rewrite attempt_retryable_failed. exact Hretry.
            + apply (Hpre k a Hk). simpl in Hlt. lia.
          - rewrite last_cons_nonempty by lia.
            destruct (r_success r).
            + exact Hout.
            + destruct Hout as (Hnone & e & a & He & Hl & Hs & Hh & Hnr).
              split; [exact Hnone|]. exists e, a. repeat split; try assumption.
              intros Hlt. apply Hnr. simpl in Hlt. lia. }
        intros [|k] a Hk; simpl in Hk.
        { injection Hk as <-. rewrite Nat.add_0_r, <- Hc. simpl. reflexivity. }
        specialize (Hres k a Hk).
        replace (vendorCalls w + S k)%nat with (S (vendorCalls w + k))%nat by lia.
        exact Hres.
      * do 3 eexists. split; [reflexivity|]. split; [reflexivity|]. leaf.
        -- do 2 eexists. repeat split; try reflexivity. intros _. exact Hretry.
        -- intros [|k] a Hk; [|destruct k; discriminate Hk].
           injection Hk as <-. rewrite Nat.add_0_r, <- Hc. simpl. auto.
Qed.

Lemma callProviderWithRetry_run provider request config context env w :
  exists r w',
    callProviderWithRetry provider request config context env w = (Ok r, w') /\
    RetryRun provider request config context (maxRetries config) 0 w (r_attempts r) r w'.
Proof.
  unfold callProviderWithRetry.
  destruct (attemptLoop_run provider request config context env (maxRetries config) 0%nat [] w)
    as (r & w' & new & Hrun & Hatts & HR).
  simpl in Hatts. subst new. eauto.
Qed.

Lemma retry_outcome_last_status remaining r :
  retry_outcome remaining (r_attempts r) r -> last_status r.
Proof.
  unfold retry_outcome, last_status. intros [_ H].
  destruct (r_success r).
  - destruct H as (resp & a & ? & ? & ? & _). eauto.
  - destruct H as (? & e & a & ? & ? & ? & _). eauto.
Qed.

Lemma last_app_nonempty {A} (l1 l2 : list A) :
  (1 <= length l2)%nat -> last (l1 ++ l2) = last l2.
Proof.
  intros H. destruct l2 as [|x l2]; [simpl in H; lia|].
  rewrite last_app. destruct (last (x :: l2)) eqn:E; [reflexivity|].
  apply last_None in E. discriminate.
Qed.

Lemma callProviderWithFallback_run primary fallback request config context env w :
  exists r w',
    callProviderWithFallback primary fallback request config context env w = (Ok r, w') /\
    FallbackRun primary fallback context w r w'.
Proof.
  unfold callProviderWithFallback, bind.
  destruct (callProviderWithRetry_run primary request config context env w)
    as (r1 & w1 & Hrun1 & HR1).
  rewrite Hrun1.
  destruct HR1 as (Hp1 & Hf1 & Hlen1 & Hidx1 & Hprov1 & Hframe1 & (rows1 & Hrows1 & Hrel1)
                   & Hcalls1 & (evs1 & Htr1 & Hevs1 & Hvc1) & Hout1 & Hres1).
  assert (Hdirect : FallbackRun primary fallback context w r1 w1).
  { unfold FallbackRun. repeat split; try apply Hframe1; eauto.
    apply (retry_outcome_last_status _ _ Hout1). }
  destruct (r_success r1) eqn:Hs1; [unfold ret; eauto|].
  destruct fallback as [fb|]; [|unfold ret; eauto].
  destruct (callProviderWithRetry_run fb request config context env w1)
    as (r2 & w2 & Hrun2 & HR2).
  rewrite Hrun2. unfold ret. do 2 eexists. split; [reflexivity|].
  destruct HR2 as (Hp2 & Hf2 & Hlen2 & Hidx2 & Hprov2 & Hframe2 & (rows2 & Hrows2 & Hrel2)
                   & Hcalls2 & (evs2 & Htr2 & Hevs2 & Hvc2) & Hout2 & Hres2).
  unfold FallbackRun, same_tables_but_attempts in *. simpl.
  destruct Hframe1 as (? & ? & ? & ? & ?). destruct Hframe2 as (? & ? & ? & ? & ?).
  split; [repeat split; congruence|].
  split.
  { exists (rows1 ++ rows2). split; [rewrite Hrows2, Hrows1, app_assoc; reflexivity|].
    apply Forall2_app; assumption. }
  split.
  { exists (evs1 ++ evs2). split; [rewrite Htr2, Htr1, app_assoc; reflexivity|].
    split; [apply Forall_app; split; assumption|].
    unfold vendor_calls in *. rewrite List.filter_app, !length_app. lia. }
  split; [right; eauto|].
  apply retry_outcome_last_status in Hout2. unfold last_status in *. simpl.
  rewrite last_app_nonempty by lia. exact Hout2.
Qed.




(** C5: [callProviderWithFallback] first runs the retry engine against the
    primary adapter; if that succeeds its result is returned as it is
    ([fallbackUsed] = false, primary attempts only); if it fails and there
    is no fallback adapter the primary failure is returned with its
    attempts; otherwise the retry engine runs against the fallback, from the
    world the primary run left, and the result is the fallback's with
    [fallbackUsed] = true and attempts = primary attempts ++ fallback
    attempts. *)
Theorem callProviderWithFallback_order (primaryProvider : ProviderAdapter)
    (fallbackProvider : option ProviderAdapter) (request : ProviderRequest)
    (config : RetryConfig) (context : CallContext) (env : Env) (w : World) :
  exists primaryResult w1,
    callProviderWithRetry primaryProvider request config context env w
      = (Ok primaryResult, w1) /\
    Forall (fun a => at_provider a = name primaryProvider)
      (r_attempts primaryResult) /\
    (r_success primaryResult = true ->
       callProviderWithFallback primaryProvider fallbackProvider request config
         context env w = (Ok primaryResult, w1) /\
       r_fallbackUsed primaryResult = false) /\
    (r_success primaryResult = false -> fallbackProvider = None ->
       callProviderWithFallback primaryProvider fallbackProvider request config
         context env w = (Ok primaryResult, w1)) /\
    (r_success primaryResult = false ->
     forall fallback, fallbackProvider = Some fallback ->
       exists fallbackResult w2 r,
         callProviderWithRetry fallback request config context env w1
           = (Ok fallbackResult, w2) /\
         callProviderWithFallback primaryProvider fallbackProvider request config
           context env w = (Ok r, w2) /\
         r_fallbackUsed r = true /\
         r_attempts r = r_attempts primaryResult ++ r_attempts fallbackResult /\
         Forall (fun a => at_provider a = name fallback) (r_attempts fallbackResult) /\
         r_success r = r_success fallbackResult /\
         r_response r = r_response fallbackResult /\
         r_error r = r_error fallbackResult /\
         r_providerUsed r = name fallback).
Proof.
  destruct (callProviderWithRetry_run primaryProvider request config context env w)
    as (r1 & w1 & Hrun1 & HR1).
  exists r1, w1. split; [exact Hrun1|].
  destruct HR1 as (Hp1 & Hf1 & _ & _ & Hprov1 & _).
  split; [exact Hprov1|].
  unfold callProviderWithFallback, bind, ret. rewrite Hrun1.
  split; [intros Hs; rewrite Hs; split; [reflexivity | exact Hf1]|].
  split; [intros Hs ->; rewrite Hs; reflexivity|].
  intros Hs fallback ->. rewrite Hs.
  destruct (callProviderWithRetry_run fallback request config context env w1)
    as (r2 & w2 & Hrun2 & HR2).
  destruct HR2 as (Hp2 & _ & _ & _ & Hprov2 & _).
  exists r2, w2. eexists. split; [exact Hrun2|]. rewrite Hrun2.
  split; [reflexivity|]. simpl. repeat split; assumption.
Qed.

(* --------------------------------------------------------------------- *)
(** *** ConversationService.ts: the runs of sendMessage *)

Ltac mstep1 :=
  cbv beta iota zeta delta
    [bind ret throw tryCatch get put emit ask Date_now elapse
     sleep drawBackoff awaitCall generateEventId generateMessageId
     generateIdempotencyId generateId ProviderCallEventRepo.create
     UsageEventRepo.create MessageRepo.create
     IdempotencyRepo.lookup IdempotencyRepo.create IdempotencyRepo.prisma_create
     IdempotencyRepo.updateResponse SessionRepo.findById SessionRepo.updateLastActivity
     AgentRepo.findById MessageRepo.listBySession
     with_sessions with_messages with_providerCallEvents with_usageEvents
     with_idempotencyRecords with_now with_uuids with_vendorCalls with_backoffs
     with_trace agents sessions messages providerCallEvents usageEvents
     idempotencyRecords now uuids vendorCalls backoffs trace
     IdempotencyRepo.row SessionRepo.row AgentRepo.row AgentRepo.id SessionRepo.id
     idemKey placeholder touch_session user_message history after_user_turn
     assistant_message usage_event envelope complete_row after_assistant_turn
     allFailed callContext
     fst snd].
Ltac mstep := mstep1; simpl.

Ltac msimp :=
  mstep;
  repeat (match goal with
          | H : ?x = _ |- context [match ?x with _ => _ end] => rewrite H
          | H : ?x = _ |- context [if ?x then _ else _] => rewrite H
          end; mstep).

Lemma checkIdempotency_run T S K c env w res w1 :
  checkIdempotency T S K c env w = (res, w1) ->
  (exists rec stored,
     idempotencyRecords w !! idemKey T K = Some rec /\
     i_responseJson rec = Some stored /\
     res = Ok (Some (set_replayed stored true)) /\
     w1 = with_trace w (trace w ++ [DbRead IdempotencyRecords [T]])) \/
  (res = Ok None /\ Began T S K c env w w1).
Proof.
  unfold checkIdempotency.
  destruct (idempotencyRecords w !! idemKey T K) as [rec|] eqn:Hrec.
  - destruct (i_responseJson rec) as [stored|] eqn:Hst.
    + intros H. left. exists rec, stored. split; [reflexivity|]. split; [exact Hst|].
      revert H Hrec. destruct w. msimp. intros H Hrec. rewrite Hrec in H. 
      revert H. msimp. intros [= <- <-]. split; reflexivity.
    + intros H. right.
      pose proof (Began_existing T S K c env w rec Hrec Hst) as HB.
      revert H Hrec HB. destruct w. msimp. intros H Hrec. rewrite Hrec in H.
      revert H. msimp. rewrite <- app_assoc. simpl.
      intros [= <- <-] HB. split; [reflexivity | exact HB].
  - intros H. right.
    pose proof (Began_new T S K c env w Hrec) as HB.
    revert H Hrec HB. destruct w. msimp. intros H Hrec. rewrite Hrec in H.
    revert H. msimp. rewrite <- app_assoc. simpl.
    intros [= <- <-] HB. split; [reflexivity | exact HB].
Qed.

Lemma getProviderAdapter_run n env w :
  (exists p, getProviderAdapter n env w = (Ok p, w) /\ known_provider p) \/
  (exists msg, getProviderAdapter n env w = (Throw (JsError msg), w)).
Proof.
  unfold getProviderAdapter, known_provider. mstep.
  destruct (String.eqb n "vendorA"); [left; eexists; split; [reflexivity | left; reflexivity]|].
  destruct (String.eqb n "vendorB"); [left; eexists; split; [reflexivity | right; reflexivity]|].
  right. eexists. reflexivity.
Qed.

Lemma prepareSend_run T S c rid env w :
  PrepareRun T S c rid env w
    (fst (prepareSend T S c rid env w)) (snd (prepareSend T S c rid env w)).
Proof.
  unfold prepareSend.
  destruct (sessions w !! S) as [srow|] eqn:Hses.
  2:{ pose proof (Prepare_no_session T S c rid env w) as HP.
      revert Hses HP. destruct w. msimp. intros Hses HP. msimp.
      apply HP. intros r Hr. congruence. }
  destruct (String.eqb (s_tenantId srow) T) eqn:HsT.
  2:{ pose proof (Prepare_no_session T S c rid env w) as HP.
      revert Hses HP. destruct w. msimp. intros Hses HP. msimp.
      apply HP. intros r Hr. assert (r = srow) by congruence. subst r.
      apply String.eqb_neq. exact HsT. }
  pose proof HsT as HsT'. apply String.eqb_eq in HsT'.
  destruct (agents w !! s_agentId srow) as [arow|] eqn:Hag.
  2:{ pose proof (Prepare_no_agent T S c rid env w srow Hses HsT') as HP.
      revert Hses Hag HP. destruct w. msimp. intros Hses Hag HP. msimp.
      subst T. rewrite <- app_assoc. apply HP. intros r Hr. congruence. }
  destruct (String.eqb (a_tenantId arow) T) eqn:HaT.
  2:{ pose proof (Prepare_no_agent T S c rid env w srow Hses HsT') as HP.
      revert Hses Hag HP. destruct w. msimp. intros Hses Hag HP. msimp.
      subst T. rewrite <- app_assoc. apply HP.
      intros r Hr. assert (r = arow) by congruence. subst r.
      apply String.eqb_neq. exact HaT. }
  pose proof HaT as HaT'. apply String.eqb_eq in HaT'.
  pose proof (fun msg => Prepare_unknown_provider T S c rid env w srow arow msg Hses HsT' Hag HaT') as HPu.
  pose proof (fun p => Prepare_ok T S c rid env w srow arow p Hses HsT' Hag HaT') as HPo.
  revert Hses Hag HPu HPo. destruct w. msimp. intros Hses Hag HPu HPo. msimp.
  subst T. rewrite HaT', <- !app_assoc. simpl.
  match goal with
  | |- context [getProviderAdapter ?n env ?w0] =>
      destruct (getProviderAdapter_run n env w0) as [(p & Hp & Hk) | (msg & Hp)];
        rewrite Hp
  end.
  2:{ simpl. apply HPu. }
  destruct (a_fallbackProvider arow) as [n|].
  2:{ msimp. apply HPo; [reflexivity | exact Hk | discriminate]. }
  destruct (String.eqb n EmptyString).
  { msimp. apply HPo; [reflexivity | exact Hk | discriminate]. }
  mstep.
  match goal with
  | |- context [getProviderAdapter ?n env ?w0] =>
      destruct (getProviderAdapter_run n env w0) as [(p' & Hp' & Hk') | (msg & Hp')];
        rewrite Hp'
  end.
  - simpl. apply HPo; [reflexivity | exact Hk |]. intros fb [= <-]. exact Hk'.
  - simpl. apply HPu.
Qed.

Lemma calculateCost_known provider tin tout :
  provider = "vendorA" \/ provider = "vendorB" ->
  exists cost, Pricing.calculateCost provider tin tout = inl cost.
Proof. intros [-> | ->]; eexists; reflexivity. Qed.

Lemma completeSend_run T S K rid agent r env w :
  r_providerUsed r = "vendorA" \/ r_providerUsed r = "vendorB" ->
  is_Some (idempotencyRecords w !! idemKey T K) ->
  CompleteRun T S K rid agent r env w
    (fst (completeSend T S K rid agent r env w))
    (snd (completeSend T S K rid agent r env w)).
Proof.
  intros Hprov [rec Hrec]. unfold completeSend.
  destruct (if r_success r then r_response r else None) as [resp|] eqn:Hresp.
  2:{ simpl. apply Complete_failed. exact Hresp. }
  destruct (r_success r) eqn:Hs; [|discriminate Hresp].
  destruct (calculateCost_known _ (tokensIn resp) (tokensOut resp) Hprov) as [cost Hcost].
  pose proof (Complete_ok T S K rid agent r env w resp cost rec Hs Hresp Hcost Hrec) as HC.
  revert Hrec HC. destruct w. msimp. intros Hrec HC. msimp.
  rewrite <- !app_assoc. exact HC.
Qed.

Lemma Began_record T S K c env w w2 :
  Began T S K c env w w2 -> is_Some (idempotencyRecords w2 !! idemKey T K).
Proof.
  intros [rec Hrec Hst | Hnone]; destruct w; simpl in *.
  - eauto.
  - rewrite lookup_insert_eq. eauto.
Qed.

Lemma sendMessage_bind T S K c rid env w :
  String.eqb K EmptyString = false ->
  sendMessage T S (Some K) c rid env w =
  match checkIdempotency T S K c env w with
  | (Ok (Some stored), w1) => (Ok stored, w1)
  | (Ok None, w2) =>
      match prepareSend T S c rid env w2 with
      | (Ok p, w5) =>
          match callProviderWithFallback (p_primaryProvider p) (p_fallbackProvider p)
                  (p_conversationHistory p) DEFAULT_RETRY_CONFIG
                  (callContext T S rid (p_agent p)) env w5 with
          | (Ok r, w7) => completeSend T S K rid (p_agent p) r env w7
          | (Throw e, w7) => (Throw e, w7)
          end
      | (Throw e, w5) => (Throw e, w5)
      end
  | (Throw e, w1) => (Throw e, w1)
  end.
Proof.
  intros HK. unfold sendMessage. rewrite HK. unfold bind, ret.
  destruct (checkIdempotency T S K c env w) as [[[stored|]|e] w1]; try reflexivity.
Qed.

Lemma sendMessage_run T S K c rid env w :
  String.eqb K EmptyString = false ->
  SendRun T S K c rid env w
    (fst (sendMessage T S (Some K) c rid env w))
    (snd (sendMessage T S (Some K) c rid env w)).
Proof.
  intros HK. rewrite (sendMessage_bind _ _ _ _ _ _ _ HK).
  destruct (checkIdempotency T S K c env w) as [res1 w1] eqn:Hcheck.
  destruct (checkIdempotency_run _ _ _ _ _ _ _ _ Hcheck)
    as [(rec & stored & Hrec & Hst & -> & ->) | [-> HB]].
  { simpl. eapply Send_replay; eassumption. }
  pose proof (prepareSend_run T S c rid env w1) as HP.
  destruct (prepareSend T S c rid env w1) as [[p|e] w5] eqn:Hprep; simpl in HP.
  2:{ simpl. eapply Send_unprepared; eassumption. }
  destruct (callProviderWithFallback_run (p_primaryProvider p) (p_fallbackProvider p)
              (p_conversationHistory p) DEFAULT_RETRY_CONFIG
              (callContext T S rid (p_agent p)) env w5) as (r & w7 & Hcall & HF).
  rewrite Hcall.
  eapply Send_processed; try eassumption.
  apply completeSend_run.
  - inversion HP as [| | |srow arow p0 Hses HsT Hag HaT Hagent Hk Hkf]; subst.
    destruct HF as (_ & _ & _ & [Hn | (fb & Hfb & Hn)] & _); rewrite Hn.
    + exact Hk.
    + exact (Hkf fb Hfb).
  - destruct HF as ((_ & _ & _ & _ & Hid) & _). rewrite Hid.
    inversion HP as [| | |srow arow p0 Hses HsT Hag HaT Hagent Hk Hkf]; subst.
    pose proof (Began_record _ _ _ _ _ _ _ HB) as Hsome.
    destruct w1; exact Hsome.
Qed.

Lemma isolated_step_refl T w : isolated_step T w w.
Proof.
  split; [exists []; rewrite app_nil_r; split; [reflexivity | constructor]|].
  unfold foreign_rows_untouched. tauto.
Qed.

Lemma isolated_step_trans T w1 w2 w3 :
  isolated_step T w1 w2 -> isolated_step T w2 w3 -> isolated_step T w1 w3.
Proof.
  intros [(e1 & Ht1 & Ho1) (Ha1 & Hs1 & Hi1 & Hm1 & He1 & Hu1)]
         [(e2 & Ht2 & Ho2) (Ha2 & Hs2 & Hi2 & Hm2 & He2 & Hu2)].
  split.
  - exists (e1 ++ e2). split; [rewrite Ht2, Ht1, app_assoc; reflexivity|].
    apply Forall_app; split; assumption.
  - unfold foreign_rows_untouched.
    split; [intros id r Hr; rewrite (Ha2 id r Hr); apply Ha1; exact Hr|].
    split; [intros id r Hr; rewrite (Hs2 id r Hr); apply Hs1; exact Hr|].
    split; [intros t sc k Ht; rewrite Hi2, Hi1 by assumption; reflexivity|].
    repeat split; congruence.
Qed.

Lemma foreign_app_own {A} (owner : A -> string) T (l : list A) (x : A) :
  owner x = T -> foreign owner T (l ++ [x]) = foreign owner T l.
Proof.
  intros H. unfold foreign. rewrite List.filter_app. simpl.
  rewrite H, String.eqb_refl. simpl. apply app_nil_r.
Qed.

Lemma foreign_app_all_own {A} (owner : A -> string) T (l new : list A) :
  Forall (fun x => owner x = T) new -> foreign owner T (l ++ new) = foreign owner T l.
Proof.
  intros H. unfold foreign. rewrite List.filter_app.
  replace (List.filter _ new) with (@nil A); [apply app_nil_r|].
  induction H as [|x new Hx _ IH]; [reflexivity|].
  simpl. rewrite Hx, String.eqb_refl. simpl. exact IH.
Qed.

Lemma Began_isolated T S K c env w w2 : Began T S K c env w w2 -> isolated_step T w w2.
Proof.
  intros [rec Hrec Hst | Hnone]; destruct w; split; simpl.
  - eexists; split; [reflexivity | repeat constructor].
  - unfold foreign_rows_untouched; simpl. tauto.
  - eexists; split; [reflexivity | repeat constructor].
  - unfold foreign_rows_untouched; simpl. repeat split; try tauto.
    intros t sc k Ht. apply lookup_insert_ne. unfold idemKey. congruence.
Qed.

Lemma insert_by_createdAt_Forall (P : Message -> Prop) m l :
  P m -> Forall P l -> Forall P (MessageRepo.insert_by_createdAt m l).
Proof.
  intros Hm Hl. induction Hl as [|x l Hx Hl IH]; simpl.
  - repeat constructor. exact Hm.
  - destruct (m_createdAt m <=? m_createdAt x); repeat constructor; assumption.
Qed.

Lemma orderBy_createdAt_asc_Forall (P : Message -> Prop) l :
  Forall P l -> Forall P (MessageRepo.orderBy_createdAt_asc l).
Proof.
  intros Hl. induction Hl as [|x l Hx Hl IH]; simpl; [constructor|].
  apply insert_by_createdAt_Forall; assumption.
Qed.

Lemma history_owned T S msgs : Forall (fun o => o = T) (map m_tenantId (history T S msgs)).
Proof.
  unfold history. apply Forall_map. apply orderBy_createdAt_asc_Forall.
  apply Forall_forall. intros m Hm. apply list_elem_of_In, filter_In in Hm.
  destruct Hm as [_ Hm]. unfold MessageRepo.in_session in Hm.
  apply andb_prop in Hm. destruct Hm as [Hm _]. apply String.eqb_eq. exact Hm.
Qed.

Lemma touch_foreign T S (srow : SessionRow) t (m : gmap string SessionRow) :
  m !! S = Some srow -> s_tenantId srow = T ->
  forall id r, s_tenantId r <> T ->
    <[S := touch_session srow t]> m !! id = Some r <-> m !! id = Some r.
Proof.
  intros Hs HT id r Hr. destruct (decide (S = id)) as [<- | Hne].
  - rewrite lookup_insert_eq. split.
    + intros [= <-]. simpl in Hr. congruence.
    + intros H. congruence.
  - rewrite lookup_insert_ne by exact Hne. reflexivity.
Qed.

Lemma PrepareRun_isolated T S c rid env w res w5 :
  PrepareRun T S c rid env w res w5 -> isolated_step T w w5.
Proof.
  intros [Hno | srow Hses HsT Hno | srow arow msg Hses HsT Hag HaT
          | srow arow p Hses HsT Hag HaT Hagent Hk Hkf]; destruct w; simpl in *.
  - split; simpl; [eexists; split; [reflexivity | repeat constructor]|].
    unfold foreign_rows_untouched; simpl; tauto.
  - split; simpl; [eexists; split; [reflexivity | repeat constructor]|].
    unfold foreign_rows_untouched; simpl; tauto.
  - split; simpl.
    + eexists; split; [reflexivity|]. repeat constructor. apply history_owned.
    + unfold foreign_rows_untouched; simpl. repeat split; try tauto;
        try (apply (touch_foreign T S srow); assumption).
      apply foreign_app_own. reflexivity.
  - split; simpl.
    + eexists; split; [reflexivity|]. repeat constructor. apply history_owned.
    + unfold foreign_rows_untouched; simpl. repeat split; try tauto;
        try (apply (touch_foreign T S srow); assumption).
      apply foreign_app_own. reflexivity.
Qed.

Lemma caller_event_owned T ev : caller_event T ev -> owned_by T ev.
Proof. destruct ev as [t o|t o|t o|p|ms]; simpl; try tauto. destruct t; tauto. Qed.

Lemma FallbackRun_isolated primary fallback context w r w' :
  FallbackRun primary fallback context w r w' ->
  isolated_step (c_tenantId context) w w'.
Proof.
  intros ((Ha & Hs & Hm & Hu & Hi) & (rows & Hrows & Hrel) & (evs & Htr & Hevs & _) & _).
  split.
  - exists evs. split; [exact Htr|]. eapply Forall_impl; [exact Hevs|].
    intros ev. apply caller_event_owned.
  - unfold foreign_rows_untouched. rewrite Ha, Hs, Hm, Hu, Hi, Hrows.
    repeat split; try tauto.
    apply foreign_app_all_own.
    clear Hrows. induction Hrel as [|a row l1 l2 Hrow _ IH]; constructor; [|exact IH].
    apply Hrow.
Qed.

Lemma CompleteRun_isolated T S K rid agent r env w res w' :
  CompleteRun T S K rid agent r env w res w' -> isolated_step T w w'.
Proof.
  intros [Hfail | resp cost rec Hs Hresp Hcost Hrec]; [apply isolated_step_refl|].
  destruct w; split; simpl.
  - eexists; split; [reflexivity | repeat constructor].
  - unfold foreign_rows_untouched; simpl. repeat split; try tauto.
    + intros t sc k Ht. apply lookup_insert_ne. unfold idemKey. congruence.
    + apply foreign_app_own. reflexivity.
    + apply foreign_app_own. reflexivity.
Qed.

Lemma SendRun_isolated T S K c rid env w res w' :
  SendRun T S K c rid env w res w' -> isolated_step T w w'.
Proof.
  intros [rec stored Hrec Hst | w2 e w5 HB HP | w2 p w5 r w7 res0 w'0 HB HP Hcall HF HC].
  - destruct w; split; simpl; [eexists; split; [reflexivity | repeat constructor]|].
    unfold foreign_rows_untouched; simpl; tauto.
  - eapply isolated_step_trans; [eapply Began_isolated; eassumption|].
    eapply PrepareRun_isolated; eassumption.
  - eapply isolated_step_trans; [eapply Began_isolated; eassumption|].
    eapply isolated_step_trans; [eapply PrepareRun_isolated; eassumption|].
    eapply isolated_step_trans; [|eapply CompleteRun_isolated; eassumption].
    apply FallbackRun_isolated in HF. exact HF.
Qed.

(** C9, as amended: every store event of a run of [sendMessage] for tenant
    [T] (each read with the rows it returned, each insert and update with
    the row it wrote) concerns rows whose tenantId is [T], and every row of
    another tenant, in every table, is the same after the run as before.
    The reads and the inserts carry the tenant filter themselves; the
    session update is keyed by the session id alone and is safe because
    [sendMessage] runs it only after the tenant-scoped [findById]. *)
Theorem sendMessage_tenant_isolation (T S : string) (K : option string)
    (c rid : string) (env : Env) (w : World) :
  isolates T (sendMessage T S K c rid) env w.
Proof.
  unfold isolates.
  destruct K as [K|]; [|apply isolated_step_refl].
  destruct (String.eqb K EmptyString) eqn:HK.
  - unfold sendMessage. rewrite HK. apply isolated_step_refl.
  - eapply SendRun_isolated. apply sendMessage_run. exact HK.
Qed.

Lemma Began_quiet T S K c env w w2 :
  Began T S K c env w w2 ->
  sessions w2 = sessions w /\ now w2 = now w /\ messages w2 = messages w /\
  usageEvents w2 = usageEvents w /\ providerCallEvents w2 = providerCallEvents w /\
  exists evs, trace w2 = trace w ++ evs /\ vendor_calls evs = 0%nat /\
              no_session_update evs.
Proof.
  intros [rec Hrec Hst | Hnone]; destruct w; simpl;
    (repeat split; try reflexivity);
    (eexists; split; [reflexivity | split; [reflexivity | repeat constructor]]).
Qed.

Lemma caller_events_no_session_update T evs :
  Forall (caller_event T) evs -> no_session_update evs.
Proof.
  intros H. eapply Forall_impl; [exact H|].
  intros [t o|t o|t o|p|ms]; simpl; try tauto.
Qed.

Lemma CompleteRun_tail T S K rid agent r env w res w' :
  CompleteRun T S K rid agent r env w res w' ->
  sessions w' = sessions w /\
  exists evs, trace w' = trace w ++ evs /\ no_session_update evs.
Proof.
  intros [Hfail | resp cost rec Hs Hresp Hcost Hrec].
  - split; [reflexivity|]. exists []. rewrite app_nil_r. split; [reflexivity | constructor].
  - destruct w; simpl. split; [reflexivity|].
    eexists; split; [reflexivity | repeat constructor].
Qed.

Lemma no_session_update_app l1 l2 :
  no_session_update l1 -> no_session_update l2 -> no_session_update (l1 ++ l2).
Proof. intros H1 H2. apply Forall_app; split; assumption. Qed.

Lemma vendor_calls_app l1 l2 :
  vendor_calls (l1 ++ l2) = (vendor_calls l1 + vendor_calls l2)%nat.
Proof. unfold vendor_calls. rewrite List.filter_app, length_app. reflexivity. Qed.

Lemma after_user_turn_touched T S K c env w w2 srow post w' :
  Began T S K c env w w2 ->
  sessions w2 !! S = Some srow -> s_tenantId srow = T ->
  sessions w' = sessions (after_user_turn T S c env w2 srow) ->
  trace w' = trace (after_user_turn T S c env w2 srow) ++ post ->
  no_session_update post ->
  session_touched T S w w'.
Proof.
  intros HB Hses HsT Hs' Ht' Hpost.
  destruct (Began_quiet _ _ _ _ _ _ _ HB) as (Hs2 & Hn2 & _ & _ & _ & evs & Ht2 & Hv2 & Hu2).
  exists srow, (evs ++ [DbRead Sessions [T]; DbRead Agents [T]]).
  exists (DbRead Messages
            (map m_tenantId
               (history T S (messages w2 ++ [user_message T S c env w2]))) :: post).
  split; [rewrite <- Hs2; exact Hses|]. split; [exact HsT|].
  split.
  { rewrite Hs'. destruct w2; simpl in *. rewrite Hs2, Hn2. reflexivity. }
  split.
  { rewrite Ht'. destruct w2; simpl in *. rewrite Ht2, <- !app_assoc. simpl. reflexivity. }
  split.
  { rewrite vendor_calls_app, Hv2. reflexivity. }
  apply no_session_update_app; [apply no_session_update_app; [exact Hu2 | repeat constructor]|].
  constructor; [reflexivity | exact Hpost].
Qed.

Lemma SendRun_session T S K c rid env w res w' :
  SendRun T S K c rid env w res w' ->
  (session_untouched w w' \/ session_touched T S w w') /\
  (forall e, res = Throw (AppErr e) -> code e = ALL_PROVIDERS_FAILED ->
             session_touched T S w w').
Proof.
  intros [rec stored Hrec Hst | w2 e w5 HB HP | w2 p w5 r w7 res0 w'0 HB HP Hcall HF HC].
  - split; [left|intros e He; discriminate He].
    destruct w; split; simpl; [reflexivity|].
    eexists; split; [reflexivity | split; [reflexivity | repeat constructor]].
  - destruct (Began_quiet _ _ _ _ _ _ _ HB) as (Hs2 & Hn2 & _ & _ & _ & evs & Ht2 & Hv2 & Hu2).
    inversion HP as [Hno | srow Hses HsT Hno | srow arow msg Hses HsT Hag HaT | ]; subst.
    + split; [left|intros e0 [= <-] Hc; discriminate Hc].
      destruct w2; simpl in *. split; [exact Hs2|].
      exists (evs ++ [DbRead Sessions []]). rewrite Ht2, <- app_assoc.
      split; [reflexivity|]. rewrite vendor_calls_app, Hv2. split; [reflexivity|].
      apply no_session_update_app; [exact Hu2 | repeat constructor].
    + split; [left|intros e0 [= <-] Hc; discriminate Hc].
      destruct w2; simpl in *. split; [exact Hs2|].
      exists (evs ++ [DbRead Sessions [s_tenantId srow]; DbRead Agents []]).
      rewrite Ht2, <- app_assoc.
      split; [reflexivity|]. rewrite vendor_calls_app, Hv2. split; [reflexivity|].
      apply no_session_update_app; [exact Hu2 | repeat constructor].
    + split; [right|intros e0 He; discriminate He].
      eapply after_user_turn_touched with (post := []);
        [exact HB | exact Hses | reflexivity | reflexivity
         | symmetry; apply app_nil_r | constructor].
  - assert (Htouched : session_touched T S w w'0).
    { inversion HP as [| | | srow arow p0 Hses HsT Hag HaT Hagent Hk Hkf]; subst.
      destruct HF as ((_ & Hs7 & _) & _ & (evs7 & Ht7 & Hev7 & _) & _).
      destruct (CompleteRun_tail _ _ _ _ _ _ _ _ _ _ HC) as (Hs' & evs' & Ht' & Hu').
      eapply after_user_turn_touched with (post := evs7 ++ evs');
        [exact HB | exact Hses | reflexivity | | |].
      - rewrite Hs', Hs7. reflexivity.
      - rewrite Ht', Ht7, app_assoc. reflexivity.
      - apply no_session_update_app; [|exact Hu'].
        eapply caller_events_no_session_update; exact Hev7. }
    split; [right; exact Htouched | intros; exact Htouched].
Qed.

(** C10: a run of [sendMessage] leaves the session table as it was, or
    changes exactly one thing in it: [lastActivityAt] of the session of the
    send, set to the time of the send (the other columns keep their
    values); that update comes right after the insert of the user message
    and before any vendor call, and no other session update follows; a send
    that ends in ALL_PROVIDERS_FAILED has made it. *)
Theorem sendMessage_session_activity (T S : string) (K : option string)
    (c rid : string) (env : Env) (w : World) :
  (session_untouched w (snd (sendMessage T S K c rid env w)) \/
   session_touched T S w (snd (sendMessage T S K c rid env w))) /\
  (forall e, fst (sendMessage T S K c rid env w) = Throw (AppErr e) ->
             code e = ALL_PROVIDERS_FAILED ->
             session_touched T S w (snd (sendMessage T S K c rid env w))) /\
  (forall srow t,
     s_lastActivityAt (touch_session srow t) = t /\
     s_tenantId (touch_session srow t) = s_tenantId srow /\
     s_agentId (touch_session srow t) = s_agentId srow /\
     s_customerId (touch_session srow t) = s_customerId srow /\
     s_metadataJson (touch_session srow t) = s_metadataJson srow /\
     s_status (touch_session srow t) = s_status srow /\
     s_createdAt (touch_session srow t) = s_createdAt srow).
Proof.
  assert (Hquiet : session_untouched w w).
  { split; [reflexivity|]. exists []. rewrite app_nil_r.
    split; [reflexivity | split; [reflexivity | constructor]]. }
  assert (Hrun : (session_untouched w (snd (sendMessage T S K c rid env w)) \/
                  session_touched T S w (snd (sendMessage T S K c rid env w))) /\
                 (forall e, fst (sendMessage T S K c rid env w) = Throw (AppErr e) ->
                    code e = ALL_PROVIDERS_FAILED ->
                    session_touched T S w (snd (sendMessage T S K c rid env w)))).
  { destruct K as [K|].
    2:{ simpl. split; [left; exact Hquiet | intros e [= <-] Hc; discriminate Hc]. }
    destruct (String.eqb K EmptyString) eqn:HK.
    - unfold sendMessage. rewrite HK. simpl.
      split; [left; exact Hquiet | intros e [= <-] Hc; discriminate Hc].
    - apply SendRun_session with (K := K) (c := c) (rid := rid) (env := env)
                                 (res := fst (sendMessage T S (Some K) c rid env w)).
      apply sendMessage_run. exact HK. }
  destruct Hrun as [H1 H2]. split; [exact H1|]. split; [exact H2|].
  intros srow t. repeat split.
Qed.

Lemma set_replayed_restore (stored : SendMessageResponse) :
  set_replayed (set_replayed stored true)
    (replayed (md_idempotency (metadata stored))) = stored.
Proof. destruct stored as [m [a1 a2 a3 a4 a5 a6 a7 [k rp] a9]]. reflexivity. Qed.

(** C2: when the record of (tenantId, 'send_message', K) holds a response,
    [sendMessage] with that tenant and key returns the stored envelope with
    [replayed] set to true and nothing else changed (putting the stored
    flag back gives the stored envelope), and writes nothing: agents,
    sessions, messages, attempt logs, usage events and idempotency records
    are as before, the one store event being the lookup. *)
Theorem sendMessage_replay (T S K c rid : string) (env : Env) (w : World)
    (rec : IdempotencyRow) (stored : SendMessageResponse) :
  K <> EmptyString ->
  idempotencyRecords w !! (T, "send_message", K) = Some rec ->
  i_responseJson rec = Some stored ->
  fst (sendMessage T S (Some K) c rid env w) = Ok (set_replayed stored true) /\
  replayed (md_idempotency (metadata (set_replayed stored true))) = true /\
  set_replayed (set_replayed stored true)
    (replayed (md_idempotency (metadata stored))) = stored /\
  agents (snd (sendMessage T S (Some K) c rid env w)) = agents w /\
  sessions (snd (sendMessage T S (Some K) c rid env w)) = sessions w /\
  messages (snd (sendMessage T S (Some K) c rid env w)) = messages w /\
  providerCallEvents (snd (sendMessage T S (Some K) c rid env w))
    = providerCallEvents w /\
  usageEvents (snd (sendMessage T S (Some K) c rid env w)) = usageEvents w /\
  idempotencyRecords (snd (sendMessage T S (Some K) c rid env w))
    = idempotencyRecords w /\
  trace (snd (sendMessage T S (Some K) c rid env w))
    = trace w ++ [DbRead IdempotencyRecords [T]].
Proof.
  intros HK Hrec Hst. apply String.eqb_neq in HK.
  rewrite (sendMessage_bind _ _ _ _ _ _ _ HK).
  destruct (checkIdempotency T S K c env w) as [res1 w1] eqn:Hcheck.
  destruct (checkIdempotency_run _ _ _ _ _ _ _ _ Hcheck)
    as [(rec' & stored' & Hrec' & Hst' & -> & ->) | [-> HB]].
  - unfold idemKey in Hrec'. assert (rec' = rec) by congruence. subst rec'.
    assert (stored' = stored) by congruence. subst stored'.
    destruct w; simpl. repeat split. apply set_replayed_restore.
  - exfalso. inversion HB as [rec' Hrec' Hst' | Hnone]; unfold idemKey in *; congruence.
Qed.

Lemma sendMessage_replay_witness :
  fst (sendMessage "tnt_1" "ses_1" (Some "K1") "world" "req_9"
         (demo_env vendorA_ok vendorB_ok) completed_world)
  = Ok (set_replayed stored_envelope true).
Proof.
  apply (sendMessage_replay "tnt_1" "ses_1" "K1" "world" "req_9"
           (demo_env vendorA_ok vendorB_ok) completed_world
           completed_row stored_envelope).
  - discriminate.
  - vm_compute. reflexivity.
  - reflexivity.
Defined.




Example failing_attempts :
  map (fun a => (at_provider a, at_retries a, at_httpStatus a))
      (r_attempts failing_result)
  = [("vendorA", 0%nat, Some 500); ("vendorA", 1%nat, Some 500);
     ("vendorA", 2%nat, Some 500); ("vendorB", 0%nat, Some 429);
     ("vendorB", 1%nat, Some 429); ("vendorB", 2%nat, Some 429)].
Proof. vm_compute. reflexivity. Qed.

(** C9, as stated, fails: [SessionRepo.updateLastActivity] takes no
    tenantId and filters by none; called with the id of a session of tenant
    tnt_2 it rewrites that row, whoever calls. *)
Lemma updateLastActivity_not_tenant_filtered :
  ~ isolates "tnt_1" (SessionRepo.updateLastActivity "ses_2")
      (demo_env vendorA_ok vendorB_ok) shared_world.
Proof.
  unfold isolates, isolated_step, foreign_rows_untouched.
  intros (_ & _ & Hses & _).
  specialize (Hses "ses_2" other_session ltac:(discriminate)).
  assert (H : sessions shared_world !! "ses_2" = Some other_session)
    by (vm_compute; reflexivity).
  apply Hses in H. vm_compute in H. discriminate H.
Qed.

Lemma sendMessage_tenant_isolation_witness :
  isolates "tnt_1" (sendMessage "tnt_1" "ses_1" (Some "K1") "hello" "req_1")
    (demo_env vendorA_ok vendorB_ok) shared_world.
Proof.
  exact (sendMessage_tenant_isolation "tnt_1" "ses_1" (Some "K1") "hello" "req_1"
           (demo_env vendorA_ok vendorB_ok) shared_world).
Defined.

(** C1, evaluated where the code departs from it: the record of
    (tnt_1, 'send_message', K1) exists with a null response, and
    [sendMessage] does not answer with a conflict: it calls the vendor,
    writes the user and the assistant message, an attempt row and a usage
    event, and returns a fresh envelope ([replayed] = false).  When two
    sends under K1 interleave, both are billed: two usage events. *)
Theorem sendMessage_inflight_is_processed :
  idempotencyRecords inflight_world !! idemKey "tnt_1" "K1" = Some inflight_row /\
  i_responseJson inflight_row = None /\
  (exists r,
     fst (sendMessage "tnt_1" "ses_1" (Some "K1") "hello" "req_2"
            (demo_env vendorA_ok vendorB_ok) inflight_world) = Ok r /\
     replayed (md_idempotency (metadata r)) = false) /\
  vendor_calls (trace (snd (sendMessage "tnt_1" "ses_1" (Some "K1") "hello" "req_2"
                              (demo_env vendorA_ok vendorB_ok) inflight_world)))
    = 1%nat /\
  map m_role (messages (snd (sendMessage "tnt_1" "ses_1" (Some "K1") "hello" "req_2"
                               (demo_env vendorA_ok vendorB_ok) inflight_world)))
    = ["user"; "assistant"] /\
  length (providerCallEvents
            (snd (sendMessage "tnt_1" "ses_1" (Some "K1") "hello" "req_2"
                    (demo_env vendorA_ok vendorB_ok) inflight_world))) = 1%nat /\
  length (usageEvents
            (snd (sendMessage "tnt_1" "ses_1" (Some "K1") "hello" "req_2"
                    (demo_env vendorA_ok vendorB_ok) inflight_world))) = 1%nat /\
  map u_requestId
    (usageEvents (interleaved_sends (demo_env vendorA_ok vendorB_ok) demo_world))
    = ["req_B"; "req_A"].
Proof.
  split; [vm_compute; reflexivity|]. split; [reflexivity|].
  split; [eexists; split; [vm_compute; reflexivity | reflexivity]|].
  repeat split; vm_compute; reflexivity.
Qed.

(* --------------------------------------------------------------------- *)
(** *** The theorems above at the concrete vendors and worlds *)


Lemma callProviderWithFallback_order_witness :
  exists r w2,
    callProviderWithFallback (VendorAAdapter vendorA_down)
      (Some (VendorBAdapter vendorB_ok))
      (p_conversationHistory failing_prepared) DEFAULT_RETRY_CONFIG
      (callContext "tnt_1" "ses_1" "req_1" (p_agent failing_prepared))
      (demo_env vendorA_down vendorB_ok) failing_w5 = (Ok r, w2) /\
    r_fallbackUsed r = true /\ r_providerUsed r = "vendorB".
Proof.
  destruct (callProviderWithFallback_order (VendorAAdapter vendorA_down)
              (Some (VendorBAdapter vendorB_ok))
              (p_conversationHistory failing_prepared) DEFAULT_RETRY_CONFIG
              (callContext "tnt_1" "ses_1" "req_1" (p_agent failing_prepared))
              (demo_env vendorA_down vendorB_ok) failing_w5)
    as (r1 & w1 & Hrun1 & _ & _ & _ & Hfb).
  assert (Hs : r_success r1 = false).
  { apply (f_equal fst) in Hrun1. vm_compute in Hrun1. injection Hrun1 as <-.
    reflexivity. }
  destruct (Hfb Hs (VendorBAdapter vendorB_ok) eq_refl)
    as (r2 & w2 & r & _ & Hrun & Hused & _ & _ & _ & _ & _ & Hname).
  exists r, w2. split; [exact Hrun|]. split; [exact Hused | exact Hname].
Defined.

Lemma sendMessage_session_activity_witness :
  session_touched "tnt_1" "ses_1" demo_world
    (snd (sendMessage "tnt_1" "ses_1" (Some "K1") "hello" "req_1"
            failing_env demo_world)).
Proof.
  apply (proj1 (proj2 (sendMessage_session_activity "tnt_1" "ses_1" (Some "K1")
                         "hello" "req_1" failing_env demo_world))
           (allProvidersFailedError
              (ProvidersDetails "vendorA" (Some "vendorB")
                 (r_attempts failing_result))
              "req_1")).
  - vm_compute. reflexivity.
  - reflexivity.
Defined.
